(** * PIDController: a shallow embedding of src/PIDController.cpp

    The controller is a C++ class whose fields are all [double].  The file
    holds two embeddings of its member functions, line for line the same
    code read with two number systems.

    The first idealises [double] as exact rational arithmetic ([Q]):
    rounding, infinities and NaN are outside it, and its quotient by zero is
    0 where C++ yields an infinity or NaN, so its statements about values
    that depend on a quotient are made for a non-zero divisor.  Values
    computed by arithmetic are compared with [==] ([Qeq]); values that the
    code merely moves from one place to another are compared with Leibniz
    equality.  It carries the properties of the control flow and of the data
    movement of the code.

    The second, module [B64], reads [double] as IEEE 754 binary64
    ([PrimFloat.float]), with the rounding, the overflow and the NaN of the
    C++ operations.  It carries the properties whose truth depends on them:
    the range of the limiter's result, anti-windup, and the settling test as
    the code computes it.

    The member functions mutate [*this]; they are embedded as functions from
    the object before the call to the object after it.  The clock that the
    two stopwatches read is an input of every operation that reads it. *)

From Stdlib Require Import ZArith QArith Qabs List Bool Lia Lqa Floats.
Import ListNotations.
Open Scope Q_scope.

(* ------------------------------------------------------------------------- *)
(** ** Numbers *)
(* ------------------------------------------------------------------------- *)

Definition double := Q.

(** The C++ comparisons [a < b] and [a > b] on doubles. *)
Definition Qltb (a b : double) : bool := negb (Qle_bool b a).
Definition Qgtb (a b : double) : bool := Qltb b a.

(** Modelled from the spec: the header that decides which overload the
    unqualified call [abs(percent)] resolves to is not part of the sources;
    the spec reads the test as [|percent| < 0.05], the absolute value of a
    double. *)
Definition abs (x : double) : double := Qabs x.

(* ------------------------------------------------------------------------- *)
(** ** The stopwatch *)
(* ------------------------------------------------------------------------- *)

Module Timer.

(** Modelled from the spec: the type of [sample_timer] and
    [performance_timer] is declared outside the sources.  The spec gives
    its contract: [start()] begins or restarts measuring, [stop()] freezes
    the reading, and the elapsed time is the time since the last [start()],
    valid whether running or stopped.  Times are wall-clock nanoseconds
    (the code divides [elapsed().wall] by [1e9]).  [mark] is the clock value
    at the last start while running, and the frozen reading once stopped. *)
Record t : Type := mk { is_stopped : bool; mark : Z }.

Definition start (now : Z) (_ : t) : t := mk false now.

Definition elapsed (now : Z) (tm : t) : Z :=
  if is_stopped tm then mark tm else (now - mark tm)%Z.

Definition stop (now : Z) (tm : t) : t := mk true (elapsed now tm).

End Timer.

(** [(timer.elapsed().wall)/1e9] *)
Definition seconds (wall : Z) : double := inject_Z wall / 1e9.

(* ------------------------------------------------------------------------- *)
(** ** The controller object *)
(* ------------------------------------------------------------------------- *)

Record PIDController : Type := mkPID {
  kp : double;
  ki : double;
  kd : double;
  setpoint : double;
  lastSetpoint : double;
  lowerInputLimit : double;
  upperInputLimit : double;
  lowerOutputLimit : double;
  upperOutputLimit : double;
  integrator : double;
  peakTime : double;
  settlingTime : double;
  percentOvershoot : double;
  sample_timer : Timer.t;
  performance_timer : Timer.t
}.

(** Assignments to a single member. *)
Definition set_kp (v : double) (c : PIDController) : PIDController :=
  mkPID v (ki c) (kd c) (setpoint c) (lastSetpoint c)
        (lowerInputLimit c) (upperInputLimit c)
        (lowerOutputLimit c) (upperOutputLimit c)
        (integrator c) (peakTime c) (settlingTime c) (percentOvershoot c)
        (sample_timer c) (performance_timer c).

Definition set_ki (v : double) (c : PIDController) : PIDController :=
  mkPID (kp c) v (kd c) (setpoint c) (lastSetpoint c)
        (lowerInputLimit c) (upperInputLimit c)
        (lowerOutputLimit c) (upperOutputLimit c)
        (integrator c) (peakTime c) (settlingTime c) (percentOvershoot c)
        (sample_timer c) (performance_timer c).

Definition set_kd (v : double) (c : PIDController) : PIDController :=
  mkPID (kp c) (ki c) v (setpoint c) (lastSetpoint c)
        (lowerInputLimit c) (upperInputLimit c)
        (lowerOutputLimit c) (upperOutputLimit c)
        (integrator c) (peakTime c) (settlingTime c) (percentOvershoot c)
        (sample_timer c) (performance_timer c).

Definition set_setpoint (v : double) (c : PIDController) : PIDController :=
  mkPID (kp c) (ki c) (kd c) v (lastSetpoint c)
        (lowerInputLimit c) (upperInputLimit c)
        (lowerOutputLimit c) (upperOutputLimit c)
        (integrator c) (peakTime c) (settlingTime c) (percentOvershoot c)
        (sample_timer c) (performance_timer c).

Definition set_lastSetpoint (v : double) (c : PIDController) : PIDController :=
  mkPID (kp c) (ki c) (kd c) (setpoint c) v
        (lowerInputLimit c) (upperInputLimit c)
        (lowerOutputLimit c) (upperOutputLimit c)
        (integrator c) (peakTime c) (settlingTime c) (percentOvershoot c)
        (sample_timer c) (performance_timer c).

Definition set_lowerInputLimit (v : double) (c : PIDController) : PIDController :=
  mkPID (kp c) (ki c) (kd c) (setpoint c) (lastSetpoint c)
        v (upperInputLimit c)
        (lowerOutputLimit c) (upperOutputLimit c)
        (integrator c) (peakTime c) (settlingTime c) (percentOvershoot c)
        (sample_timer c) (performance_timer c).

Definition set_upperInputLimit (v : double) (c : PIDController) : PIDController :=
  mkPID (kp c) (ki c) (kd c) (setpoint c) (lastSetpoint c)
        (lowerInputLimit c) v
        (lowerOutputLimit c) (upperOutputLimit c)
        (integrator c) (peakTime c) (settlingTime c) (percentOvershoot c)
        (sample_timer c) (performance_timer c).

Definition set_lowerOutputLimit (v : double) (c : PIDController) : PIDController :=
  mkPID (kp c) (ki c) (kd c) (setpoint c) (lastSetpoint c)
        (lowerInputLimit c) (upperInputLimit c)
        v (upperOutputLimit c)
        (integrator c) (peakTime c) (settlingTime c) (percentOvershoot c)
        (sample_timer c) (performance_timer c).

Definition set_upperOutputLimit (v : double) (c : PIDController) : PIDController :=
  mkPID (kp c) (ki c) (kd c) (setpoint c) (lastSetpoint c)
        (lowerInputLimit c) (upperInputLimit c)
        (lowerOutputLimit c) v
        (integrator c) (peakTime c) (settlingTime c) (percentOvershoot c)
        (sample_timer c) (performance_timer c).

Definition set_integrator (v : double) (c : PIDController) : PIDController :=
  mkPID (kp c) (ki c) (kd c) (setpoint c) (lastSetpoint c)
        (lowerInputLimit c) (upperInputLimit c)
        (lowerOutputLimit c) (upperOutputLimit c)
        v (peakTime c) (settlingTime c) (percentOvershoot c)
        (sample_timer c) (performance_timer c).

Definition set_peakTime (v : double) (c : PIDController) : PIDController :=
  mkPID (kp c) (ki c) (kd c) (setpoint c) (lastSetpoint c)
        (lowerInputLimit c) (upperInputLimit c)
        (lowerOutputLimit c) (upperOutputLimit c)
        (integrator c) v (settlingTime c) (percentOvershoot c)
        (sample_timer c) (performance_timer c).

Definition set_settlingTime (v : double) (c : PIDController) : PIDController :=
  mkPID (kp c) (ki c) (kd c) (setpoint c) (lastSetpoint c)
        (lowerInputLimit c) (upperInputLimit c)
        (lowerOutputLimit c) (upperOutputLimit c)
        (integrator c) (peakTime c) v (percentOvershoot c)
        (sample_timer c) (performance_timer c).

Definition set_percentOvershoot (v : double) (c : PIDController) : PIDController :=
  mkPID (kp c) (ki c) (kd c) (setpoint c) (lastSetpoint c)
        (lowerInputLimit c) (upperInputLimit c)
        (lowerOutputLimit c) (upperOutputLimit c)
        (integrator c) (peakTime c) (settlingTime c) v
        (sample_timer c) (performance_timer c).

Definition set_sample_timer (v : Timer.t) (c : PIDController) : PIDController :=
  mkPID (kp c) (ki c) (kd c) (setpoint c) (lastSetpoint c)
        (lowerInputLimit c) (upperInputLimit c)
        (lowerOutputLimit c) (upperOutputLimit c)
        (integrator c) (peakTime c) (settlingTime c) (percentOvershoot c)
        v (performance_timer c).

Definition set_performance_timer (v : Timer.t) (c : PIDController) : PIDController :=
  mkPID (kp c) (ki c) (kd c) (setpoint c) (lastSetpoint c)
        (lowerInputLimit c) (upperInputLimit c)
        (lowerOutputLimit c) (upperOutputLimit c)
        (integrator c) (peakTime c) (settlingTime c) (percentOvershoot c)
        (sample_timer c) v.

(* ------------------------------------------------------------------------- *)
(** ** Accessors *)
(* ------------------------------------------------------------------------- *)

Definition getSetpoint (this : PIDController) : double := setpoint this.
Definition getKp (this : PIDController) : double := kp this.
Definition getKi (this : PIDController) : double := ki this.
Definition getKd (this : PIDController) : double := kd this.

(* ------------------------------------------------------------------------- *)
(** ** Mutators *)
(* ------------------------------------------------------------------------- *)

(** [PIDController::limiter] *)
Definition limiter (value lowerLimit upperLimit : double) : double :=
  if Qeq_bool lowerLimit upperLimit then value
  else if Qltb value lowerLimit then lowerLimit
  else if Qgtb value upperLimit then upperLimit
  else value.

(** [PIDController::setGains] *)
Definition setGains (kp ki kd : double) (this : PIDController) : PIDController :=
  let this := set_kp kp this in
  let this := set_ki ki this in
  set_kd kd this.

(** [PIDController::setInputLimits] *)
Definition setInputLimits (lowerInputLimit upperInputLimit : double)
    (this : PIDController) : PIDController :=
  let this := set_lowerInputLimit lowerInputLimit this in
  set_upperInputLimit upperInputLimit this.

(** [PIDController::setOutputLimits] *)
Definition setOutputLimits (lowerOutputLimit upperOutputLimit : double)
    (this : PIDController) : PIDController :=
  let this := set_lowerOutputLimit lowerOutputLimit this in
  set_upperOutputLimit upperOutputLimit this.

(** [PIDController::targetSetpoint] (the spec's [setSetpoint]).
    [now_sample] and [now_perf] are the clock values read by the two
    [start()] calls. *)
Definition targetSetpoint (now_sample now_perf : Z) (setpoint : double)
    (this : PIDController) : PIDController :=
  let this :=
    set_setpoint (limiter setpoint (lowerInputLimit this) (upperInputLimit this))
                 this in
  let this := set_peakTime (-1) this in
  let this := set_settlingTime (-1) this in
  let this := set_percentOvershoot 0 this in
  let this := set_sample_timer (Timer.start now_sample (sample_timer this)) this in
  set_performance_timer (Timer.start now_perf (performance_timer this)) this.

(** [PIDController::reset].  [now_sample] and [now_perf] are the clock values
    read by the two [stop()] calls. *)
Definition reset (now_sample now_perf : Z) (this : PIDController) : PIDController :=
  let this := set_setpoint 0 this in
  let this := set_lastSetpoint 0 this in
  let this := set_integrator 0 this in
  let this := set_peakTime (-1) this in
  let this := set_settlingTime (-1) this in
  let this := set_percentOvershoot 0 this in
  let this := set_sample_timer (Timer.stop now_sample (sample_timer this)) this in
  set_performance_timer (Timer.stop now_perf (performance_timer this)) this.

(** [PIDController::hasSettled] *)
Definition hasSettled (this : PIDController) : bool :=
  if negb (Qeq_bool (settlingTime this) (-1)) then true else false.

(* ------------------------------------------------------------------------- *)
(** ** calc *)
(* ------------------------------------------------------------------------- *)

(** What the three [std::cout] lines of [calc] print: the values of
    [peakTime], [percentOvershoot] and [settlingTime]. *)
Record Report : Type := mkReport {
  rep_peakTime : double;
  rep_percentOvershoot : double;
  rep_settlingTime : double
}.

(** The clock values read during one call of [calc], in program order:
    by [sample_timer.stop()], by [performance_timer.elapsed()] in the
    overshoot branch, by [performance_timer.stop()] in the settling branch and
    by [sample_timer.start()]. *)
Record Ticks : Type := mkTicks {
  at_sample_stop : Z;
  at_peak_read : Z;
  at_perf_stop : Z;
  at_sample_start : Z
}.

(** A call in which the clock does not advance. *)
Definition tick (now : Z) : Ticks := mkTicks now now now now.

(** The result of a call of [calc]: the returned [controlVariable], the
    object after the call and what the call printed. *)
Record CalcResult : Type := mkCalcResult {
  controlVariable : double;
  after : PIDController;
  printed : list Report
}.

(** The overshoot branch of [calc] (first [if]). *)
Definition calc_overshoot (clk : Ticks) (processVariable percent : double)
    (this : PIDController) : PIDController :=
  if Qgtb percent (percentOvershoot this) && Qgtb percent 0 then
    let this := set_percentOvershoot (processVariable / setpoint this) this in
    set_peakTime
      (seconds (Timer.elapsed (at_peak_read clk) (performance_timer this))) this
  else this.

(** The settling branch of [calc] (second [if]). *)
Definition calc_settling (clk : Ticks) (percent : double)
    (this : PIDController) : PIDController * list Report :=
  if Qltb (abs percent) 0.05 && Qeq_bool (settlingTime this) (-1) then
    let this :=
      set_performance_timer
        (Timer.stop (at_perf_stop clk) (performance_timer this)) this in
    let this :=
      set_settlingTime
        (seconds (Timer.elapsed (at_perf_stop clk) (performance_timer this)))
        this in
    (this,
     [mkReport (peakTime this) (percentOvershoot this) (settlingTime this)])
  else (this, []).

(** The PID arithmetic of [calc] (from [double error] to [return]). *)
Definition calc_pid (clk : Ticks) (processVariable : double)
    (this : PIDController) : double * PIDController :=
  let error := setpoint this - processVariable in
  let samplingTime :=
    seconds (Timer.elapsed (at_sample_stop clk) (sample_timer this)) in
  let differentiator := (setpoint this - lastSetpoint this) / samplingTime in
  let this := set_integrator (integrator this + error * samplingTime) this in
  let this :=
    set_integrator
      (limiter (integrator this) (lowerOutputLimit this) (upperOutputLimit this))
      this in
  let controlVariable :=
    kp this * error + ki this * integrator this - kd this * differentiator in
  let controlVariable :=
    limiter controlVariable (lowerOutputLimit this) (upperOutputLimit this) in
  let this := set_lastSetpoint (setpoint this) this in
  let this :=
    set_sample_timer (Timer.start (at_sample_start clk) (sample_timer this))
                     this in
  (controlVariable, this).

(** [PIDController::calc] (the spec's [computeOutput]). *)
Definition calc (clk : Ticks) (processVariable : double)
    (this : PIDController) : CalcResult :=
  let this :=
    set_sample_timer (Timer.stop (at_sample_stop clk) (sample_timer this))
                     this in
  let percent := (processVariable / setpoint this) - 1 in
  let this := calc_overshoot clk processVariable percent this in
  let '(this, out) := calc_settling clk percent this in
  let '(controlVariable, this) := calc_pid clk processVariable this in
  mkCalcResult controlVariable this out.

(** The sampling interval that a call of [calc] with clock values [clk]
    measures on the object [this]. *)
Definition samplingInterval (clk : Ticks) (this : PIDController) : double :=
  seconds (Timer.elapsed (at_sample_stop clk) (sample_timer this)).

(* ------------------------------------------------------------------------- *)
(** ** Constructors *)
(* ------------------------------------------------------------------------- *)

(** A constructor runs on storage whose [double] members hold indeterminate
    values and whose timers have been default-constructed; [raw] is that
    storage. *)

(** [PIDController::PIDController()] *)
Definition PIDController_default (now_sample now_perf : Z)
    (raw : PIDController) : PIDController :=
  let this := setGains 0 0 0 raw in
  let this := setInputLimits (-1) (-1) this in
  let this := setOutputLimits (-1) (-1) this in
  reset now_sample now_perf this.

(** [PIDController::PIDController(double kp, double ki, double kd)] *)
Definition PIDController_gains (now_sample now_perf : Z) (kp ki kd : double)
    (raw : PIDController) : PIDController :=
  let this := setGains kp ki kd raw in
  let this := setInputLimits (-1) (-1) this in
  let this := setOutputLimits (-1) (-1) this in
  reset now_sample now_perf this.

(** [PIDController::PIDController(kp, ki, kd, lowerOutputLimit,
    upperOutputLimit)] *)
Definition PIDController_gains_out (now_sample now_perf : Z) (kp ki kd : double)
    (lowerOutputLimit upperOutputLimit : double)
    (raw : PIDController) : PIDController :=
  let this := setGains kp ki kd raw in
  let this := setInputLimits (-1) (-1) this in
  let this := setOutputLimits lowerOutputLimit upperOutputLimit this in
  reset now_sample now_perf this.

(** [PIDController::PIDController(kp, ki, kd, lowerInputLimit,
    upperInputLimit, lowerOutputLimit, upperOutputLimit)] *)
Definition PIDController_full (now_sample now_perf : Z) (kp ki kd : double)
    (lowerInputLimit upperInputLimit : double)
    (lowerOutputLimit upperOutputLimit : double)
    (raw : PIDController) : PIDController :=
  let this := setGains kp ki kd raw in
  let this := setInputLimits lowerInputLimit upperInputLimit this in
  let this := setOutputLimits lowerOutputLimit upperOutputLimit this in
  reset now_sample now_perf this.

(** [PIDController::PIDController(const PIDController& orig)] *)
Definition PIDController_copy (orig : PIDController)
    (raw : PIDController) : PIDController :=
  let this := setGains (kp orig) (ki orig) (kd orig) raw in
  let this := setInputLimits (lowerInputLimit orig) (upperInputLimit orig) this in
  let this := setOutputLimits (lowerOutputLimit orig) (lowerInputLimit orig) this in
  let this := set_integrator (integrator orig) this in
  let this := set_lastSetpoint (lastSetpoint orig) this in
  let this := set_peakTime (peakTime orig) this in
  let this := set_settlingTime (settlingTime orig) this in
  set_percentOvershoot (percentOvershoot orig) this.

(* ------------------------------------------------------------------------- *)
(** ** Sequences of calls *)
(* ------------------------------------------------------------------------- *)

(** One sample fed to the controller: the clock values of the call and the
    measured process variable. *)
Definition Sample : Type := (Ticks * double)%type.

(** The results of the successive calls [calc(pv1); calc(pv2); ...] on an
    object, one [CalcResult] per call. *)
Fixpoint calc_trace (this : PIDController) (samples : list Sample)
    : list CalcResult :=
  match samples with
  | [] => []
  | (clk, pv) :: rest =>
      let r := calc clk pv this in
      r :: calc_trace (after r) rest
  end.

(** The object after the successive calls. *)
Fixpoint calc_all (this : PIDController) (samples : list Sample)
    : PIDController :=
  match samples with
  | [] => this
  | (clk, pv) :: rest => calc_all (after (calc clk pv this)) rest
  end.

(** Everything the successive calls print, in order. *)
Definition console (this : PIDController) (samples : list Sample)
    : list Report :=
  concat (map printed (calc_trace this samples)).

(** Storage used to run the constructors in the examples. *)
Definition raw_storage : PIDController :=
  mkPID 7 7 7 7 7 7 7 7 7 7 7 7 7 (Timer.mk false 0) (Timer.mk false 0).

(** The objects used in the examples: a default-constructed controller, and
    the sample taken [n] seconds after the clock's origin. *)
Definition fresh : PIDController := PIDController_default 0 0 raw_storage.

Definition at_second (n : Z) (pv : double) : Sample :=
  (tick (n * 1000000000), pv).

(** The running maximum of the spec, in the spec's words: the largest ratio
    [processVariable / setpoint] observed so far among the samples with
    [processVariable / setpoint - 1 > 0], and 0 if there is none.  It is
    compared below with the [percentOvershoot] that [calc] stores. *)
Fixpoint spec_running_max_ratio (setpoint : double) (pvs : list double)
    : double :=
  match pvs with
  | [] => 0
  | pv :: earlier =>
      let m := spec_running_max_ratio setpoint earlier in
      if Qgtb (pv / setpoint - 1) 0 && Qgtb (pv / setpoint) m
      then pv / setpoint else m
  end.

(** The spec's running maximum after each of the calls, oldest call first. *)
Definition spec_overshoot_history (setpoint : double) (pvs : list double)
    : list double :=
  map (fun n => spec_running_max_ratio setpoint (rev (firstn n pvs)))
      (seq 1 (length pvs)).

(** The [percentOvershoot] and [peakTime] members after each call. *)
Definition overshoot_history (this : PIDController) (samples : list Sample)
    : list double :=
  map (fun r => percentOvershoot (after r)) (calc_trace this samples).

Definition peakTime_history (this : PIDController) (samples : list Sample)
    : list double :=
  map (fun r => peakTime (after r)) (calc_trace this samples).

(** The [percent] that each call computes, for a setpoint that does not
    change. *)
Definition percents (this : PIDController) (samples : list Sample)
    : list double :=
  map (fun s : Sample => snd s / setpoint this - 1) samples.

(** Comparison of two lists of doubles, element by element, with [==]. *)
Fixpoint Qeq_list (xs ys : list double) : bool :=
  match xs, ys with
  | [], [] => true
  | x :: xs', y :: ys' => Qeq_bool x y && Qeq_list xs' ys'
  | _, _ => false
  end.

(* ------------------------------------------------------------------------- *)
(** ** Predicates and objects of the statements *)
(* ------------------------------------------------------------------------- *)

(** An original with input limits [2, 8] and output limits [-10, 10],
    in the middle of an episode with setpoint 5. *)
Definition configured : PIDController :=
  targetSetpoint 0 0 5 (PIDController_full 0 0 1 2 3 2 8 (-10) 10 raw_storage).

(** A default-constructed controller tracking the setpoint 10. *)
Definition tracking_10 : PIDController := targetSetpoint 0 0 10 fresh.

(** Four samples whose [percent] values against the setpoint 10 are 0.1,
    0.3, 0.2 and 0.4. *)
Definition rising_samples : list Sample :=
  [at_second 1 11; at_second 2 13; at_second 3 12; at_second 4 14].

(** A default-constructed controller after [targetSetpoint(100)]. *)
Definition fresh_100 : PIDController := targetSetpoint 0 0 100 fresh.

(** Samples that stay on the edge of the 5% band from the third call on. *)
Definition edge_samples : list Sample :=
  [at_second 1 0; at_second 2 50; at_second 3 95; at_second 4 105;
   at_second 5 95].

(** An episode that settles at the third call and is disturbed afterwards. *)
Definition settling_samples : list Sample :=
  [at_second 4 150; at_second 5 99].

(* ------------------------------------------------------------------------- *)
(** ** Predicates of the further properties *)
(* ------------------------------------------------------------------------- *)

(** The settling test of [calc]: [abs(percent) < 0.05]. *)
Definition in_band (setpoint processVariable : double) : Prop :=
  abs (processVariable / setpoint - 1) < 0.05.

(** The overshoot test of [calc]:
    [percent > percentOvershoot && percent > 0]. *)
Definition new_peak (processVariable : double) (this : PIDController) : Prop :=
  percentOvershoot this < processVariable / setpoint this - 1
  /\ 0 < processVariable / setpoint this - 1.

(** No [performance_timer.stop()] of the calls reads a clock value before
    [t]. *)
Definition clock_not_before (t : Z) (samples : list Sample) : Prop :=
  Forall (fun s : Sample => (t <= at_perf_stop (fst s))%Z) samples.

(** The members that configure a controller are the same in two objects. *)
Definition same_configuration (c c' : PIDController) : Prop :=
  getKp c' = getKp c /\ getKi c' = getKi c /\ getKd c' = getKd c
  /\ getSetpoint c' = getSetpoint c
  /\ lowerInputLimit c' = lowerInputLimit c
  /\ upperInputLimit c' = upperInputLimit c
  /\ lowerOutputLimit c' = lowerOutputLimit c
  /\ upperOutputLimit c' = upperOutputLimit c.

(** A controller with gains (2, 1, 0) and no limits, tracking the setpoint
    10 since the clock's origin. *)
Definition unlimited_10 : PIDController :=
  targetSetpoint 0 0 10 (PIDController_gains 0 0 2 1 0 raw_storage).


(** An episode whose second sample settles and whose later samples wander
    in and out of the band. *)
Definition wandering_samples : list Sample :=
  [at_second 1 0; at_second 2 99; at_second 3 150; at_second 4 101;
   at_second 5 100].

(** Once the controller has settled, its performance timer is stopped and
    holds the settling time. *)
Definition frozen_at_settling (this : PIDController) : Prop :=
  hasSettled this = true ->
  Timer.is_stopped (performance_timer this) = true
  /\ settlingTime this = seconds (Timer.mark (performance_timer this)).

(** The thirteen [double] members of a controller, in declaration order of
    the model. *)
Definition numeric_members (this : PIDController) : list double :=
  [kp this; ki this; kd this; setpoint this; lastSetpoint this;
   lowerInputLimit this; upperInputLimit this;
   lowerOutputLimit this; upperOutputLimit this;
   integrator this; peakTime this; settlingTime this; percentOvershoot this].

(* ------------------------------------------------------------------------- *)
(** ** The controller on binary64 *)
(* ------------------------------------------------------------------------- *)

(** The same member functions with [double] read as IEEE 754 binary64
    ([PrimFloat.float]): every arithmetic operation rounds to nearest,
    overflows to an infinity and propagates NaN as the C++ operation does,
    and every comparison is false on NaN.  The statements whose truth
    depends on NaN or on rounding are made about this embedding.  The
    stopwatch and the clock values are those of the exact embedding. *)
Module B64.

#[local] Set Warnings "-inexact-float".
Local Open Scope float_scope.

Definition double : Set := float.

(** Modelled from the spec: [abs(percent)] read as the absolute value of a
    double, as in the exact embedding. *)
Definition abs (x : double) : double := PrimFloat.abs x.

(** The conversion of the timer's [wall] count of nanoseconds (a 64-bit
    integer) to [double], which rounds to nearest. *)
Definition of_wall (wall : Z) : double :=
  if (wall <? 0)%Z
  then - PrimFloat.of_uint63 (Uint63.of_Z (- wall))
  else PrimFloat.of_uint63 (Uint63.of_Z wall).

(** [(timer.elapsed().wall)/1e9] *)
Definition seconds (wall : Z) : double := of_wall wall / 1e9.

Record PIDController : Type := mkPID {
  kp : double;
  ki : double;
  kd : double;
  setpoint : double;
  lastSetpoint : double;
  lowerInputLimit : double;
  upperInputLimit : double;
  lowerOutputLimit : double;
  upperOutputLimit : double;
  integrator : double;
  peakTime : double;
  settlingTime : double;
  percentOvershoot : double;
  sample_timer : Timer.t;
  performance_timer : Timer.t
}.

(** Assignments to a single member. *)
Definition set_kp (v : double) (c : PIDController) : PIDController :=
  mkPID v (ki c) (kd c) (setpoint c) (lastSetpoint c)
        (lowerInputLimit c) (upperInputLimit c) (lowerOutputLimit c) (upperOutputLimit c)
        (integrator c) (peakTime c) (settlingTime c) (percentOvershoot c)
        (sample_timer c) (performance_timer c).

Definition set_ki (v : double) (c : PIDController) : PIDController :=
  mkPID (kp c) v (kd c) (setpoint c) (lastSetpoint c)
        (lowerInputLimit c) (upperInputLimit c) (lowerOutputLimit c) (upperOutputLimit c)
        (integrator c) (peakTime c) (settlingTime c) (percentOvershoot c)
        (sample_timer c) (performance_timer c).

Definition set_kd (v : double) (c : PIDController) : PIDController :=
  mkPID (kp c) (ki c) v (setpoint c) (lastSetpoint c)
        (lowerInputLimit c) (upperInputLimit c) (lowerOutputLimit c) (upperOutputLimit c)
        (integrator c) (peakTime c) (settlingTime c) (percentOvershoot c)
        (sample_timer c) (performance_timer c).

Definition set_setpoint (v : double) (c : PIDController) : PIDController :=
  mkPID (kp c) (ki c) (kd c) v (lastSetpoint c)
        (lowerInputLimit c) (upperInputLimit c) (lowerOutputLimit c) (upperOutputLimit c)
        (integrator c) (peakTime c) (settlingTime c) (percentOvershoot c)
        (sample_timer c) (performance_timer c).

Definition set_lastSetpoint (v : double) (c : PIDController) : PIDController :=
  mkPID (kp c) (ki c) (kd c) (setpoint c) v
        (lowerInputLimit c) (upperInputLimit c) (lowerOutputLimit c) (upperOutputLimit c)
        (integrator c) (peakTime c) (settlingTime c) (percentOvershoot c)
        (sample_timer c) (performance_timer c).

Definition set_lowerInputLimit (v : double) (c : PIDController) : PIDController :=
  mkPID (kp c) (ki c) (kd c) (setpoint c) (lastSetpoint c)
        v (upperInputLimit c) (lowerOutputLimit c) (upperOutputLimit c)
        (integrator c) (peakTime c) (settlingTime c) (percentOvershoot c)
        (sample_timer c) (performance_timer c).

Definition set_upperInputLimit (v : double) (c : PIDController) : PIDController :=
  mkPID (kp c) (ki c) (kd c) (setpoint c) (lastSetpoint c)
        (lowerInputLimit c) v (lowerOutputLimit c) (upperOutputLimit c)
        (integrator c) (peakTime c) (settlingTime c) (percentOvershoot c)
        (sample_timer c) (performance_timer c).

Definition set_lowerOutputLimit (v : double) (c : PIDController) : PIDController :=
  mkPID (kp c) (ki c) (kd c) (setpoint c) (lastSetpoint c)
        (lowerInputLimit c) (upperInputLimit c) v (upperOutputLimit c)
        (integrator c) (peakTime c) (settlingTime c) (percentOvershoot c)
        (sample_timer c) (performance_timer c).

Definition set_upperOutputLimit (v : double) (c : PIDController) : PIDController :=
  mkPID (kp c) (ki c) (kd c) (setpoint c) (lastSetpoint c)
        (lowerInputLimit c) (upperInputLimit c) (lowerOutputLimit c) v
        (integrator c) (peakTime c) (settlingTime c) (percentOvershoot c)
        (sample_timer c) (performance_timer c).

Definition set_integrator (v : double) (c : PIDController) : PIDController :=
  mkPID (kp c) (ki c) (kd c) (setpoint c) (lastSetpoint c)
        (lowerInputLimit c) (upperInputLimit c) (lowerOutputLimit c) (upperOutputLimit c)
        v (peakTime c) (settlingTime c) (percentOvershoot c)
        (sample_timer c) (performance_timer c).

Definition set_peakTime (v : double) (c : PIDController) : PIDController :=
  mkPID (kp c) (ki c) (kd c) (setpoint c) (lastSetpoint c)
        (lowerInputLimit c) (upperInputLimit c) (lowerOutputLimit c) (upperOutputLimit c)
        (integrator c) v (settlingTime c) (percentOvershoot c)
        (sample_timer c) (performance_timer c).

Definition set_settlingTime (v : double) (c : PIDController) : PIDController :=
  mkPID (kp c) (ki c) (kd c) (setpoint c) (lastSetpoint c)
        (lowerInputLimit c) (upperInputLimit c) (lowerOutputLimit c) (upperOutputLimit c)
        (integrator c) (peakTime c) v (percentOvershoot c)
        (sample_timer c) (performance_timer c).

Definition set_percentOvershoot (v : double) (c : PIDController) : PIDController :=
  mkPID (kp c) (ki c) (kd c) (setpoint c) (lastSetpoint c)
        (lowerInputLimit c) (upperInputLimit c) (lowerOutputLimit c) (upperOutputLimit c)
        (integrator c) (peakTime c) (settlingTime c) v
        (sample_timer c) (performance_timer c).

Definition set_sample_timer (v : Timer.t) (c : PIDController) : PIDController :=
  mkPID (kp c) (ki c) (kd c) (setpoint c) (lastSetpoint c)
        (lowerInputLimit c) (upperInputLimit c) (lowerOutputLimit c) (upperOutputLimit c)
        (integrator c) (peakTime c) (settlingTime c) (percentOvershoot c)
        v (performance_timer c).

Definition set_performance_timer (v : Timer.t) (c : PIDController) : PIDController :=
  mkPID (kp c) (ki c) (kd c) (setpoint c) (lastSetpoint c)
        (lowerInputLimit c) (upperInputLimit c) (lowerOutputLimit c) (upperOutputLimit c)
        (integrator c) (peakTime c) (settlingTime c) (percentOvershoot c)
        (sample_timer c) v.

Definition getSetpoint (this : PIDController) : double := setpoint this.
Definition getKp (this : PIDController) : double := kp this.
Definition getKi (this : PIDController) : double := ki this.
Definition getKd (this : PIDController) : double := kd this.

(** [PIDController::limiter] *)
Definition limiter (value lowerLimit upperLimit : double) : double :=
  if lowerLimit =? upperLimit then value
  else if value <? lowerLimit then lowerLimit
  else if upperLimit <? value then upperLimit
  else value.

(** [PIDController::setGains] *)
Definition setGains (kp ki kd : double) (this : PIDController) : PIDController :=
  let this := set_kp kp this in
  let this := set_ki ki this in
  set_kd kd this.

(** [PIDController::setInputLimits] *)
Definition setInputLimits (lowerInputLimit upperInputLimit : double)
    (this : PIDController) : PIDController :=
  let this := set_lowerInputLimit lowerInputLimit this in
  set_upperInputLimit upperInputLimit this.

(** [PIDController::setOutputLimits] *)
Definition setOutputLimits (lowerOutputLimit upperOutputLimit : double)
    (this : PIDController) : PIDController :=
  let this := set_lowerOutputLimit lowerOutputLimit this in
  set_upperOutputLimit upperOutputLimit this.

(** [PIDController::targetSetpoint] *)
Definition targetSetpoint (now_sample now_perf : Z) (setpoint : double)
    (this : PIDController) : PIDController :=
  let this :=
    set_setpoint (limiter setpoint (lowerInputLimit this) (upperInputLimit this))
                 this in
  let this := set_peakTime (-1) this in
  let this := set_settlingTime (-1) this in
  let this := set_percentOvershoot 0 this in
  let this := set_sample_timer (Timer.start now_sample (sample_timer this)) this in
  set_performance_timer (Timer.start now_perf (performance_timer this)) this.

(** [PIDController::reset] *)
Definition reset (now_sample now_perf : Z) (this : PIDController) : PIDController :=
  let this := set_setpoint 0 this in
  let this := set_lastSetpoint 0 this in
  let this := set_integrator 0 this in
  let this := set_peakTime (-1) this in
  let this := set_settlingTime (-1) this in
  let this := set_percentOvershoot 0 this in
  let this := set_sample_timer (Timer.stop now_sample (sample_timer this)) this in
  set_performance_timer (Timer.stop now_perf (performance_timer this)) this.

(** [PIDController::hasSettled]: [settlingTime != -1] *)
Definition hasSettled (this : PIDController) : bool :=
  if negb (settlingTime this =? -1) then true else false.

(** What the three [std::cout] lines of [calc] print. *)
Record Report : Type := mkReport {
  rep_peakTime : double;
  rep_percentOvershoot : double;
  rep_settlingTime : double
}.

(** The result of a call of [calc]: the returned [controlVariable], the
    object after the call and what the call printed. *)
Record CalcResult : Type := mkCalcResult {
  controlVariable : double;
  after : PIDController;
  printed : list Report
}.

(** The overshoot branch of [calc] (first [if]). *)
Definition calc_overshoot (clk : Ticks) (processVariable percent : double)
    (this : PIDController) : PIDController :=
  if (percentOvershoot this <? percent) && (0 <? percent) then
    let this := set_percentOvershoot (processVariable / setpoint this) this in
    set_peakTime
      (seconds (Timer.elapsed (at_peak_read clk) (performance_timer this))) this
  else this.

(** The settling branch of [calc] (second [if]). *)
Definition calc_settling (clk : Ticks) (percent : double)
    (this : PIDController) : PIDController * list Report :=
  if (abs percent <? 0.05) && (settlingTime this =? -1) then
    let this :=
      set_performance_timer
        (Timer.stop (at_perf_stop clk) (performance_timer this)) this in
    let this :=
      set_settlingTime
        (seconds (Timer.elapsed (at_perf_stop clk) (performance_timer this)))
        this in
    (this,
     [mkReport (peakTime this) (percentOvershoot this) (settlingTime this)])
  else (this, []).

(** The PID arithmetic of [calc] (from [double error] to [return]). *)
Definition calc_pid (clk : Ticks) (processVariable : double)
    (this : PIDController) : double * PIDController :=
  let error := setpoint this - processVariable in
  let samplingTime :=
    seconds (Timer.elapsed (at_sample_stop clk) (sample_timer this)) in
  let differentiator := (setpoint this - lastSetpoint this) / samplingTime in
  let this := set_integrator (integrator this + error * samplingTime) this in
  let this :=
    set_integrator
      (limiter (integrator this) (lowerOutputLimit this) (upperOutputLimit this))
      this in
  let controlVariable :=
    kp this * error + ki this * integrator this - kd this * differentiator in
  let controlVariable :=
    limiter controlVariable (lowerOutputLimit this) (upperOutputLimit this) in
  let this := set_lastSetpoint (setpoint this) this in
  let this :=
    set_sample_timer (Timer.start (at_sample_start clk) (sample_timer this))
                     this in
  (controlVariable, this).

(** [PIDController::calc] *)
Definition calc (clk : Ticks) (processVariable : double)
    (this : PIDController) : CalcResult :=
  let this :=
    set_sample_timer (Timer.stop (at_sample_stop clk) (sample_timer this))
                     this in
  let percent := (processVariable / setpoint this) - 1 in
  let this := calc_overshoot clk processVariable percent this in
  let '(this, out) := calc_settling clk percent this in
  let '(controlVariable, this) := calc_pid clk processVariable this in
  mkCalcResult controlVariable this out.

(** The sampling interval that a call of [calc] measures. *)
Definition samplingInterval (clk : Ticks) (this : PIDController) : double :=
  seconds (Timer.elapsed (at_sample_stop clk) (sample_timer this)).

(** [PIDController::PIDController(kp, ki, kd, lowerInputLimit,
    upperInputLimit, lowerOutputLimit, upperOutputLimit)] *)
Definition PIDController_full (now_sample now_perf : Z) (kp ki kd : double)
    (lowerInputLimit upperInputLimit : double)
    (lowerOutputLimit upperOutputLimit : double)
    (raw : PIDController) : PIDController :=
  let this := setGains kp ki kd raw in
  let this := setInputLimits lowerInputLimit upperInputLimit this in
  let this := setOutputLimits lowerOutputLimit upperOutputLimit this in
  reset now_sample now_perf this.

(** [PIDController::PIDController(kp, ki, kd, lowerOutputLimit,
    upperOutputLimit)] *)
Definition PIDController_gains_out (now_sample now_perf : Z) (kp ki kd : double)
    (lowerOutputLimit upperOutputLimit : double)
    (raw : PIDController) : PIDController :=
  let this := setGains kp ki kd raw in
  let this := setInputLimits (-1) (-1) this in
  let this := setOutputLimits lowerOutputLimit upperOutputLimit this in
  reset now_sample now_perf this.

(** [PIDController::PIDController(double kp, double ki, double kd)] *)
Definition PIDController_gains (now_sample now_perf : Z) (kp ki kd : double)
    (raw : PIDController) : PIDController :=
  let this := setGains kp ki kd raw in
  let this := setInputLimits (-1) (-1) this in
  let this := setOutputLimits (-1) (-1) this in
  reset now_sample now_perf this.

(** One sample fed to the controller. *)
Definition Sample : Type := (Ticks * double)%type.

(** The results of the successive calls of [calc], one per call. *)
Fixpoint calc_trace (this : PIDController) (samples : list Sample)
    : list CalcResult :=
  match samples with
  | [] => []
  | (clk, pv) :: rest =>
      let r := calc clk pv this in
      r :: calc_trace (after r) rest
  end.

(** The object after the successive calls. *)
Fixpoint calc_all (this : PIDController) (samples : list Sample)
    : PIDController :=
  match samples with
  | [] => this
  | (clk, pv) :: rest => calc_all (after (calc clk pv this)) rest
  end.

(** Everything the successive calls print, in order. *)
Definition console (this : PIDController) (samples : list Sample)
    : list Report :=
  concat (map printed (calc_trace this samples)).

(** [lo <= x && x <= hi], false when [x] is NaN. *)
Definition in_range (lo hi x : double) : bool := (lo <=? x) && (x <=? hi).

(** A value that is in range, or is NaN. *)
Definition in_range_or_nan (lo hi x : double) : bool :=
  in_range lo hi x || is_nan x.

(** What anti-windup keeps of one call: the returned value and the stored
    integrator are in range or NaN. *)
Definition within_limits_or_nan (lo hi : double) (r : CalcResult) : bool :=
  in_range_or_nan lo hi (controlVariable r)
  && in_range_or_nan lo hi (integrator (after r)).

(** The settling test of [calc], as the code computes it. *)
Definition in_band (setpoint processVariable : double) : bool :=
  abs (processVariable / setpoint - 1) <? 0.05.

(** What the integrator holds after successive calls when nothing clamps
    it: the sum, in the order and with the rounding of the code, of each
    error times its sampling interval, the interval running from the
    previous [sample_timer.start()] (at [t0] for the first call) to the
    call's [sample_timer.stop()]. *)
Fixpoint accumulate (acc setpoint : double) (t0 : Z) (samples : list Sample)
    : double :=
  match samples with
  | [] => acc
  | (clk, pv) :: rest =>
      accumulate (acc + (setpoint - pv) * seconds (at_sample_stop clk - t0))
                 setpoint (at_sample_start clk) rest
  end.

(** Storage used to run the constructors in the examples, and the sample
    taken [n] seconds after the clock's origin. *)
Definition raw_storage : PIDController :=
  mkPID 7 7 7 7 7 7 7 7 7 7 7 7 7 (Timer.mk false 0) (Timer.mk false 0).

Definition at_second (n : Z) (pv : double) : Sample :=
  (tick (n * 1000000000), pv).

(** A controller with gains (1, 2, 3) and output limits [-10, 10]. *)
Definition limited : PIDController :=
  setOutputLimits (-10) 10 (PIDController_gains 0 0 1 2 3 raw_storage).

End B64.

(** The outcome of comparing two doubles, as the C++ comparisons see it:
    [None] when one of them is NaN. *)
Definition fcompare (a b : float) : option comparison :=
  SFcompare (Prim2SF a) (Prim2SF b).

(* ========================================================================= *)
(** * Properties *)
(* ========================================================================= *)

(* ------------------------------------------------------------------------- *)
(** ** Comparisons *)
(* ------------------------------------------------------------------------- *)

Lemma Qltb_iff (a b : double) : Qltb a b = true <-> a < b.
Proof.
  unfold Qltb. rewrite negb_true_iff. split.
  - intros H. apply Qnot_le_lt. intros L.
    apply Qle_bool_iff in L. congruence.
  - intros H. destruct (Qle_bool b a) eqn:E; [|reflexivity].
    apply Qle_bool_iff in E. lra.
Qed.

Lemma Qltb_false_iff (a b : double) : Qltb a b = false <-> b <= a.
Proof.
  unfold Qltb. rewrite negb_false_iff. apply Qle_bool_iff.
Qed.

Lemma Qgtb_iff (a b : double) : Qgtb a b = true <-> b < a.
Proof. apply Qltb_iff. Qed.

Lemma Qgtb_false_iff (a b : double) : Qgtb a b = false <-> a <= b.
Proof. apply Qltb_false_iff. Qed.

#[export] Instance Qltb_comp : Proper (Qeq ==> Qeq ==> eq) Qltb.
Proof. intros a a' Ha b b' Hb. unfold Qltb. now rewrite Ha, Hb. Qed.

#[export] Instance Qgtb_comp : Proper (Qeq ==> Qeq ==> eq) Qgtb.
Proof. intros a a' Ha b b' Hb. unfold Qgtb. now rewrite Ha, Hb. Qed.

(* ------------------------------------------------------------------------- *)
(** ** The limiter *)
(* ------------------------------------------------------------------------- *)

(** The three outcomes of [limiter] when clamping is enabled. *)
Lemma limiter_cases (x lo hi : double) :
  ~ lo == hi ->
  (x < lo /\ limiter x lo hi = lo)
  \/ (lo <= x /\ hi < x /\ limiter x lo hi = hi)
  \/ (lo <= x /\ x <= hi /\ limiter x lo hi = x).
Proof.
  intros Hne. unfold limiter.
  destruct (Qeq_bool lo hi) eqn:E.
  - apply Qeq_bool_iff in E. contradiction.
  - destruct (Qltb x lo) eqn:L.
    + left. apply Qltb_iff in L. auto.
    + apply Qltb_false_iff in L.
      destruct (Qgtb x hi) eqn:G.
      * apply Qgtb_iff in G. right; left; auto.
      * apply Qgtb_false_iff in G. right; right; auto.
Qed.

Lemma limiter_disabled (x lo hi : double) :
  lo == hi -> limiter x lo hi = x.
Proof.
  intros H. unfold limiter. apply Qeq_bool_iff in H. now rewrite H.
Qed.

(** C6: equal bounds disable the limiter: [limiter(x, c, c)] returns [x]
    itself, for every [x] and every [c]. *)
Theorem limiter_equal_bounds_identity :
  forall x c : double, limiter x c c = x.
Proof.
  intros x c. apply limiter_disabled. reflexivity.
Qed.

(* ------------------------------------------------------------------------- *)
(** ** targetSetpoint and reset *)
(* ------------------------------------------------------------------------- *)

(** C5: [targetSetpoint] stores the limiter's result on the input limits;
    after [setInputLimits(2, 8)], the target 15 is stored as 8 and the
    target -3 as 2. *)
Theorem targetSetpoint_clamps_to_input_limits :
  (forall (t1 t2 : Z) (target : double) (c : PIDController),
      getSetpoint (targetSetpoint t1 t2 target c)
      = limiter target (lowerInputLimit c) (upperInputLimit c))
  /\ (forall (t1 t2 : Z) (c : PIDController),
         getSetpoint (targetSetpoint t1 t2 15 (setInputLimits 2 8 c)) = 8)
  /\ (forall (t1 t2 : Z) (c : PIDController),
         getSetpoint (targetSetpoint t1 t2 (-3) (setInputLimits 2 8 c)) = 2).
Proof.
  split; [|split]; intros; reflexivity.
Qed.

(** [targetSetpoint] opens an episode: the three performance members are at
    their sentinels and both timers run. *)
Lemma targetSetpoint_opens_episode (t1 t2 : Z) (target : double)
    (c : PIDController) :
  let c' := targetSetpoint t1 t2 target c in
  peakTime c' = -1 /\ settlingTime c' = -1 /\ percentOvershoot c' = 0
  /\ hasSettled c' = false
  /\ sample_timer c' = Timer.mk false t1
  /\ performance_timer c' = Timer.mk false t2
  /\ integrator c' = integrator c /\ lastSetpoint c' = lastSetpoint c.
Proof.
  repeat split.
Qed.

(** C8: [reset] clears the episode and leaves the configuration alone: the
    setpoint, the last setpoint and the integrator are 0, the peak and
    settling times are -1, the overshoot is 0, [hasSettled] answers false,
    and the three gains and the four limits are those before the call. *)
Theorem reset_clears_episode_keeps_configuration :
  forall (t1 t2 : Z) (c : PIDController),
    let c' := reset t1 t2 c in
    (setpoint c' = 0 /\ lastSetpoint c' = 0 /\ integrator c' = 0
     /\ peakTime c' = -1 /\ settlingTime c' = -1 /\ percentOvershoot c' = 0
     /\ hasSettled c' = false)
    /\ (getKp c' = getKp c /\ getKi c' = getKi c /\ getKd c' = getKd c)
    /\ (lowerInputLimit c' = lowerInputLimit c
        /\ upperInputLimit c' = upperInputLimit c
        /\ lowerOutputLimit c' = lowerOutputLimit c
        /\ upperOutputLimit c' = upperOutputLimit c)
    /\ (Timer.is_stopped (sample_timer c') = true
        /\ Timer.is_stopped (performance_timer c') = true).
Proof.
  intros t1 t2 c. cbv zeta. repeat split.
Qed.

(* ------------------------------------------------------------------------- *)
(** ** The copy constructor *)
(* ------------------------------------------------------------------------- *)

(** The members that the copy constructor does take from the original. *)
Lemma copy_duplicated_members (orig raw : PIDController) :
  let c := PIDController_copy orig raw in
  kp c = kp orig /\ ki c = ki orig /\ kd c = kd orig
  /\ lowerInputLimit c = lowerInputLimit orig
  /\ upperInputLimit c = upperInputLimit orig
  /\ lowerOutputLimit c = lowerOutputLimit orig
  /\ integrator c = integrator orig
  /\ lastSetpoint c = lastSetpoint orig
  /\ peakTime c = peakTime orig
  /\ settlingTime c = settlingTime orig
  /\ percentOvershoot c = percentOvershoot orig.
Proof.
  repeat split.
Qed.

(** C2 (the code departs from the claim): the copy's upper output limit is the
    original's LOWER INPUT limit, whatever the original's upper output limit
    is; on an original with input limits [2, 8] and output limits [-10, 10]
    the copy has output limits [-10, 2]. *)
Theorem copy_upperOutputLimit_is_lowerInputLimit :
  (forall orig raw : PIDController,
      upperOutputLimit (PIDController_copy orig raw) = lowerInputLimit orig)
  /\ upperOutputLimit configured = 10
  /\ lowerOutputLimit (PIDController_copy configured raw_storage) = -10
  /\ upperOutputLimit (PIDController_copy configured raw_storage) = 2
  /\ Qeq_bool (upperOutputLimit (PIDController_copy configured raw_storage))
              (upperOutputLimit configured) = false.
Proof.
  repeat split.
Qed.

(** C9: the copy constructor never assigns [setpoint]: the copy's setpoint is
    whatever the storage held before construction, whichever object is
    copied; so [getSetpoint] of a copy need not be the original's setpoint. *)
Theorem copy_leaves_setpoint_unassigned :
  (forall orig raw : PIDController,
      getSetpoint (PIDController_copy orig raw) = getSetpoint raw)
  /\ (forall orig orig' raw : PIDController,
         getSetpoint (PIDController_copy orig raw)
         = getSetpoint (PIDController_copy orig' raw))
  /\ getSetpoint configured = 5
  /\ getSetpoint (PIDController_copy configured raw_storage) = 7
  /\ Qeq_bool (getSetpoint (PIDController_copy configured raw_storage))
              (getSetpoint configured) = false.
Proof.
  repeat split.
Qed.

(* ------------------------------------------------------------------------- *)
(** ** What calc leaves alone *)
(* ------------------------------------------------------------------------- *)

(** [calc] never writes the gains, the limits or the setpoint. *)
Lemma calc_frame (clk : Ticks) (pv : double) (c : PIDController) :
  let c' := after (calc clk pv c) in
  kp c' = kp c /\ ki c' = ki c /\ kd c' = kd c
  /\ setpoint c' = setpoint c
  /\ lowerInputLimit c' = lowerInputLimit c
  /\ upperInputLimit c' = upperInputLimit c
  /\ lowerOutputLimit c' = lowerOutputLimit c
  /\ upperOutputLimit c' = upperOutputLimit c.
Proof.
  unfold calc, calc_overshoot, calc_settling, calc_pid.
  destruct (Qgtb _ _ && Qgtb _ _); destruct (Qltb _ _ && Qeq_bool _ _);
    cbn; repeat split.
Qed.

(* ------------------------------------------------------------------------- *)
(** ** Overshoot tracking *)
(* ------------------------------------------------------------------------- *)

(** The overshoot branch writes [percentOvershoot] exactly when [percent]
    exceeds both 0 and the stored [percentOvershoot], and what it stores is
    the ratio, which is [percent + 1]. *)
Lemma calc_overshoot_spec (clk : Ticks) (pv percent : double)
    (c : PIDController) :
  (percentOvershoot c < percent /\ 0 < percent
   /\ percentOvershoot (calc_overshoot clk pv percent c) = pv / setpoint c
   /\ peakTime (calc_overshoot clk pv percent c)
      = seconds (Timer.elapsed (at_peak_read clk) (performance_timer c)))
  \/ ((percent <= percentOvershoot c \/ percent <= 0)
      /\ calc_overshoot clk pv percent c = c).
Proof.
  unfold calc_overshoot.
  destruct (Qgtb percent (percentOvershoot c)) eqn:A;
    destruct (Qgtb percent 0) eqn:B; cbn.
  - left. apply Qgtb_iff in A. apply Qgtb_iff in B. auto.
  - right. apply Qgtb_false_iff in B. auto.
  - right. apply Qgtb_false_iff in A. auto.
  - right. apply Qgtb_false_iff in A. auto.
Qed.

(** C1 (the code departs from the claim): with the setpoint 10 and the
    process variable 11, 13, 12, 14 (percent 0.1, 0.3, 0.2, 0.4), [calc]
    writes [percentOvershoot] and [peakTime] at the first call only: the
    stored ratio stays 1.1 and the peak time stays 1 s, while the running
    maximum of the ratios is 1.1, 1.3, 1.3, 1.4. *)
Theorem overshoot_stuck_after_first_peak :
  Qeq_list (percents tracking_10 rising_samples) [0.1; 0.3; 0.2; 0.4] = true
  /\ Qeq_list (overshoot_history tracking_10 rising_samples)
              [1.1; 1.1; 1.1; 1.1] = true
  /\ Qeq_list (peakTime_history tracking_10 rising_samples)
              [1; 1; 1; 1] = true
  /\ Qeq_list (spec_overshoot_history 10 (map snd rising_samples))
              [1.1; 1.3; 1.3; 1.4] = true
  /\ Qeq_list (overshoot_history tracking_10 rising_samples)
              (spec_overshoot_history 10 (map snd rising_samples)) = false.
Proof.
  repeat split; vm_compute; reflexivity.
Qed.

(* ------------------------------------------------------------------------- *)
(** ** The stages of calc *)
(* ------------------------------------------------------------------------- *)

Lemma calc_stages (clk : Ticks) (pv : double) (c : PIDController) :
  calc clk pv c
  = let c1 :=
      set_sample_timer (Timer.stop (at_sample_stop clk) (sample_timer c)) c in
    let percent := pv / setpoint c - 1 in
    let c2 := calc_overshoot clk pv percent c1 in
    let so := calc_settling clk percent c2 in
    let po := calc_pid clk pv (fst so) in
    mkCalcResult (fst po) (snd po) (snd so).
Proof.
  unfold calc. cbv zeta.
  destruct (calc_settling _ _ _) as [c3 out].
  destruct (calc_pid _ _ _) as [cv c4]. reflexivity.
Qed.

Lemma calc_overshoot_keeps (clk : Ticks) (pv percent : double)
    (c : PIDController) :
  let c' := calc_overshoot clk pv percent c in
  settlingTime c' = settlingTime c
  /\ performance_timer c' = performance_timer c
  /\ setpoint c' = setpoint c.
Proof.
  unfold calc_overshoot. destruct (_ && _); repeat split.
Qed.

Lemma calc_pid_keeps (clk : Ticks) (pv : double) (c : PIDController) :
  let c' := snd (calc_pid clk pv c) in
  settlingTime c' = settlingTime c
  /\ peakTime c' = peakTime c
  /\ percentOvershoot c' = percentOvershoot c
  /\ performance_timer c' = performance_timer c.
Proof.
  repeat split.
Qed.

Lemma calc_settling_spec (clk : Ticks) (percent : double)
    (c : PIDController) :
  (abs percent < 0.05 /\ settlingTime c == -1
   /\ exists c',
       calc_settling clk percent c
       = (c', [mkReport (peakTime c') (percentOvershoot c') (settlingTime c')])
       /\ settlingTime c'
          = seconds (Timer.elapsed (at_perf_stop clk) (performance_timer c))
       /\ peakTime c' = peakTime c
       /\ percentOvershoot c' = percentOvershoot c
       /\ Timer.is_stopped (performance_timer c') = true)
  \/ ((0.05 <= abs percent \/ ~ settlingTime c == -1)
      /\ calc_settling clk percent c = (c, [])).
Proof.
  unfold calc_settling.
  destruct (Qltb (abs percent) 0.05) eqn:A;
    destruct (Qeq_bool (settlingTime c) (-1)) eqn:B; cbv [andb].
  - left. apply Qltb_iff in A. apply Qeq_bool_iff in B.
    split; [exact A | split; [exact B |]].
    eexists. split; [reflexivity |]. repeat split.
  - right. apply Qeq_bool_neq in B. auto.
  - right. apply Qltb_false_iff in A. auto.
  - right. apply Qltb_false_iff in A. auto.
Qed.

Lemma calc_settling_cases (clk : Ticks) (pv : double) (c : PIDController) :
  let percent := pv / setpoint c - 1 in
  let r := calc clk pv c in
  (abs percent < 0.05 /\ settlingTime c == -1
   /\ settlingTime (after r)
      = seconds (Timer.elapsed (at_perf_stop clk) (performance_timer c))
   /\ printed r = [mkReport (peakTime (after r)) (percentOvershoot (after r))
                            (settlingTime (after r))]
   /\ Timer.is_stopped (performance_timer (after r)) = true)
  \/ ((0.05 <= abs percent \/ ~ settlingTime c == -1)
      /\ settlingTime (after r) = settlingTime c
      /\ printed r = []
      /\ performance_timer (after r) = performance_timer c).
Proof.
  cbv zeta. rewrite calc_stages. cbv zeta. cbn [after printed].
  set (c1 := set_sample_timer _ c).
  set (percent := pv / setpoint c - 1).
  destruct (calc_overshoot_keeps clk pv percent c1) as (Hs & Hp & _).
  cbv zeta in Hs, Hp.
  change (settlingTime c1) with (settlingTime c) in Hs.
  change (performance_timer c1) with (performance_timer c) in Hp.
  set (c2 := calc_overshoot clk pv percent c1) in *.
  destruct (calc_settling_spec clk percent c2)
    as [(A & B & c3 & E & Hst & Hpk & Hov & Hstop) | (A & E)];
    rewrite E; cbn [fst snd];
    destruct (calc_pid_keeps clk pv) with (c := fst (calc_settling clk percent c2))
      as (K1 & K2 & K3 & K4); rewrite E in *; cbn [fst snd] in *; cbv zeta in *.
  - left. rewrite K1, K2, K3, K4, Hst, Hp. rewrite Hs in B. auto.
  - right. rewrite K1, K4, Hs, Hp. rewrite Hs in A. auto.
Qed.

(* ------------------------------------------------------------------------- *)
(** ** Settling detection *)
(* ------------------------------------------------------------------------- *)

(** With the setpoint 100, the settling test [|percent| < 0.05] is the open
    band (95, 105) of the process variable. *)
Lemma band_iff (pv sp : double) :
  sp == 100 -> (abs (pv / sp - 1) < 0.05 <-> 95 < pv < 105).
Proof.
  intros H. unfold abs. rewrite H, Qabs_Qlt_condition.
  unfold Qdiv. change (/ 100) with (1 # 100).
  split; intros; lra.
Qed.

Lemma seconds_nonneg (wall : Z) : (0 <= wall)%Z -> 0 <= seconds wall.
Proof.
  intros H. unfold seconds, Qdiv.
  apply Qmult_le_0_compat.
  - change 0 with (inject_Z 0). rewrite <- Zle_Qle. exact H.
  - vm_compute. discriminate.
Qed.

Lemma hasSettled_true_iff (c : PIDController) :
  hasSettled c = true <-> ~ settlingTime c == -1.
Proof.
  unfold hasSettled. destruct (Qeq_bool (settlingTime c) (-1)) eqn:E; cbn.
  - apply Qeq_bool_iff in E. split; [discriminate | contradiction].
  - apply Qeq_bool_neq in E. split; auto.
Qed.

Lemma hasSettled_false_iff (c : PIDController) :
  hasSettled c = false <-> settlingTime c == -1.
Proof.
  unfold hasSettled. destruct (Qeq_bool (settlingTime c) (-1)) eqn:E; cbn.
  - apply Qeq_bool_iff in E. split; auto.
  - apply Qeq_bool_neq in E. split; [discriminate | contradiction].
Qed.

Lemma hasSettled_ext (c c' : PIDController) :
  settlingTime c' = settlingTime c -> hasSettled c' = hasSettled c.
Proof. unfold hasSettled. now intros ->. Qed.

(** A call whose sample is outside the band changes nothing about settling. *)
Lemma calc_outside_band (clk : Ticks) (pv : double) (c : PIDController) :
  ~ abs (pv / setpoint c - 1) < 0.05 ->
  let r := calc clk pv c in
  hasSettled (after r) = hasSettled c
  /\ printed r = []
  /\ performance_timer (after r) = performance_timer c.
Proof.
  intros H.
  destruct (calc_settling_cases clk pv c)
    as [(A & _) | (_ & Hs & Hp & Ht)]; [contradiction |].
  cbv zeta. auto using hasSettled_ext.
Qed.

(** A call on a settled controller changes nothing about settling. *)
Lemma calc_when_settled (clk : Ticks) (pv : double) (c : PIDController) :
  hasSettled c = true ->
  let r := calc clk pv c in
  hasSettled (after r) = true
  /\ printed r = []
  /\ settlingTime (after r) = settlingTime c.
Proof.
  intros H.
  destruct (calc_settling_cases clk pv c)
    as [(_ & B & _) | (_ & Hs & Hp & _)].
  - apply hasSettled_true_iff in H. contradiction.
  - cbv zeta. rewrite (hasSettled_ext _ _ Hs). auto.
Qed.

(** The call that settles: the sample is inside the band, the controller has
    not settled, and the performance timer does not read a negative time. *)
Lemma calc_settles (clk : Ticks) (pv : double) (c : PIDController) :
  abs (pv / setpoint c - 1) < 0.05 ->
  hasSettled c = false ->
  (0 <= Timer.elapsed (at_perf_stop clk) (performance_timer c))%Z ->
  let r := calc clk pv c in
  hasSettled (after r) = true
  /\ printed r = [mkReport (peakTime (after r)) (percentOvershoot (after r))
                           (settlingTime (after r))]
  /\ settlingTime (after r)
     = seconds (Timer.elapsed (at_perf_stop clk) (performance_timer c)).
Proof.
  intros A B T.
  destruct (calc_settling_cases clk pv c)
    as [(_ & _ & Hs & Hp & _) | ([A' | B'] & _)].
  - cbv zeta. repeat split; auto.
    apply hasSettled_true_iff. rewrite Hs.
    apply seconds_nonneg in T. lra.
  - lra.
  - apply hasSettled_false_iff in B. contradiction.
Qed.

(** Once settled, always settled, and silent, whatever is fed to [calc]. *)
Lemma settled_persists (samples : list Sample) :
  forall c : PIDController,
    hasSettled c = true ->
    map (fun r => hasSettled (after r)) (calc_trace c samples)
    = repeat true (length samples)
    /\ map printed (calc_trace c samples) = repeat [] (length samples)
    /\ settlingTime (calc_all c samples) = settlingTime c.
Proof.
  induction samples as [| [clk pv] rest IH]; intros c H.
  - repeat split.
  - destruct (calc_when_settled clk pv c H) as (H1 & H2 & H3).
    cbv zeta in H1, H2, H3.
    destruct (IH _ H1) as (I1 & I2 & I3).
    cbn [calc_trace calc_all map length repeat].
    rewrite H1, H2, I1, I2, I3, H3. repeat split.
Qed.

(** C4, as stated, fails: with the setpoint 100 and the process variable
    held within [[95, 105]] from the third call on (at 95 and 105), the
    controller never settles and nothing is reported. *)
Lemma settling_misses_band_edge :
  getSetpoint fresh_100 = 100
  /\ forallb (fun s : Sample => Qle_bool 95 (snd s) && Qle_bool (snd s) 105)
          (skipn 2 edge_samples) = true
  /\ map (fun r => hasSettled (after r)) (calc_trace fresh_100 edge_samples)
     = [false; false; false; false; false]
  /\ console fresh_100 edge_samples = [].
Proof.
  repeat split; vm_compute; reflexivity.
Qed.

(** C4, amended: after [targetSetpoint(100)] has stored 100, if the process
    variable is outside the open band (95, 105) at calls 1 and 2 and inside
    it at call 3, and the clock has not gone backwards since the episode
    started, then [hasSettled] is false after calls 1 and 2 and true after
    call 3 and after every later call, whatever is fed later; exactly one
    report is printed, by call 3, and it carries the peak time, overshoot
    and settling time of that moment; a later [targetSetpoint] leaves the
    settled state. *)
Theorem settling_single_shot :
  forall (t1 t2 : Z) (c0 : PIDController) (s1 s2 s3 : Sample)
         (later : list Sample),
    let c := targetSetpoint t1 t2 100 c0 in
    setpoint c == 100 ->
    ~ 95 < snd s1 < 105 ->
    ~ 95 < snd s2 < 105 ->
    95 < snd s3 < 105 ->
    (t2 <= at_perf_stop (fst s3))%Z ->
    let trace := calc_trace c (s1 :: s2 :: s3 :: later) in
    let c3 := calc_all c [s1; s2; s3] in
    let report :=
      mkReport (peakTime c3) (percentOvershoot c3) (settlingTime c3) in
    map (fun r => hasSettled (after r)) trace
    = false :: false :: true :: repeat true (length later)
    /\ map printed trace = [] :: [] :: [report] :: repeat [] (length later)
    /\ console c (s1 :: s2 :: s3 :: later) = [report]
    /\ settlingTime c3 = seconds (at_perf_stop (fst s3) - t2)
    /\ (forall (u1 u2 : Z) (target : double),
           hasSettled
             (targetSetpoint u1 u2 target
                (calc_all c (s1 :: s2 :: s3 :: later))) = false).
Proof.
  intros t1 t2 c0 [k1 p1] [k2 p2] [k3 p3] later c Hsp N1 N2 I3 Hclk.
  cbn [fst snd] in *.
  assert (Hc : hasSettled c = false /\ performance_timer c = Timer.mk false t2)
    by (split; reflexivity).
  destruct Hc as [Hc Tc].
  (* call 1 *)
  destruct (calc_outside_band k1 p1 c) as (A1 & P1 & T1).
  { rewrite (band_iff p1 _ Hsp). exact N1. }
  cbv zeta in A1, P1, T1.
  destruct (calc_frame k1 p1 c) as (_ & _ & _ & S1 & _). cbv zeta in S1.
  set (c1 := after (calc k1 p1 c)) in *.
  (* call 2 *)
  destruct (calc_outside_band k2 p2 c1) as (A2 & P2 & T2).
  { rewrite S1, (band_iff p2 _ Hsp). exact N2. }
  cbv zeta in A2, P2, T2.
  destruct (calc_frame k2 p2 c1) as (_ & _ & _ & S2 & _). cbv zeta in S2.
  set (c2 := after (calc k2 p2 c1)) in *.
  (* call 3 *)
  destruct (calc_settles k3 p3 c2) as (A3 & P3 & T3).
  { rewrite S2, S1, (band_iff p3 _ Hsp). exact I3. }
  { congruence. }
  { rewrite T2, T1, Tc. cbn. lia. }
  cbv zeta in A3, P3, T3.
  rewrite T2, T1, Tc in T3. cbn [Timer.elapsed Timer.is_stopped Timer.mark] in T3.
  (* later calls *)
  destruct (settled_persists later _ A3) as (L1 & L2 & L3).
  cbv zeta. unfold console.
  cbn [calc_trace calc_all map fst snd].
  fold c1. fold c2.
  rewrite L1, L2, P1, P2, P3, A2, A1, A3, Hc, T3.
  repeat split.
  cbn [concat app]. f_equal.
  clear. induction (length later); [reflexivity | exact IHn].
Qed.

Lemma settling_single_shot_witness :
  map (fun r => hasSettled (after r))
      (calc_trace (targetSetpoint 0 0 100 fresh)
         (at_second 1 0 :: at_second 2 120 :: at_second 3 104
          :: settling_samples))
  = [false; false; true; true; true]
  /\ console (targetSetpoint 0 0 100 fresh)
       (at_second 1 0 :: at_second 2 120 :: at_second 3 104
        :: settling_samples)
     = [mkReport
          (peakTime (calc_all (targetSetpoint 0 0 100 fresh)
                       [at_second 1 0; at_second 2 120; at_second 3 104]))
          (percentOvershoot (calc_all (targetSetpoint 0 0 100 fresh)
                       [at_second 1 0; at_second 2 120; at_second 3 104]))
          (settlingTime (calc_all (targetSetpoint 0 0 100 fresh)
                       [at_second 1 0; at_second 2 120; at_second 3 104]))].
Proof.
  assert (H0 : setpoint (targetSetpoint 0 0 100 fresh) == 100)
    by reflexivity.
  assert (H1 : ~ 95 < snd (at_second 1 0) < 105) by (cbn; lra).
  assert (H2 : ~ 95 < snd (at_second 2 120) < 105) by (cbn; lra).
  assert (H3 : 95 < snd (at_second 3 104) < 105) by (cbn; lra).
  assert (H4 : (0 <= at_perf_stop (fst (at_second 3 104%Q)))%Z) by (cbn; lia).
  pose proof (settling_single_shot 0 0 fresh
                (at_second 1 0) (at_second 2 120) (at_second 3 104)
                settling_samples H0 H1 H2 H3 H4) as W.
  cbv zeta in W. destruct W as (W1 & _ & W3 & _).
  split; [exact W1 | exact W3].
Defined.

(* ------------------------------------------------------------------------- *)
(** ** Overshoot tracking after settling *)
(* ------------------------------------------------------------------------- *)

(** What [calc] does to [percentOvershoot] and [peakTime]: the condition
    mentions [percent] and the stored [percentOvershoot] only. *)
Lemma calc_overshoot_members (clk : Ticks) (pv : double) (c : PIDController) :
  let percent := pv / setpoint c - 1 in
  let r := calc clk pv c in
  percentOvershoot (after r)
  = (if Qgtb percent (percentOvershoot c) && Qgtb percent 0
     then pv / setpoint c else percentOvershoot c)
  /\ peakTime (after r)
     = (if Qgtb percent (percentOvershoot c) && Qgtb percent 0
        then seconds (Timer.elapsed (at_peak_read clk) (performance_timer c))
        else peakTime c).
Proof.
  cbv zeta. rewrite calc_stages. cbv zeta. cbn [after].
  set (c1 := set_sample_timer _ c).
  set (percent := pv / setpoint c - 1).
  set (c2 := calc_overshoot clk pv percent c1).
  destruct (calc_pid_keeps clk pv (fst (calc_settling clk percent c2)))
    as (_ & K2 & K3 & _).
  cbv zeta in K2, K3. rewrite K2, K3.
  assert (E : percentOvershoot (fst (calc_settling clk percent c2))
              = percentOvershoot c2
              /\ peakTime (fst (calc_settling clk percent c2)) = peakTime c2).
  { destruct (calc_settling_spec clk percent c2)
      as [(_ & _ & c3 & E & _ & Hpk & Hov & _) | (_ & E)];
      rewrite E; cbn [fst]; auto. }
  destruct E as [-> ->].
  subst c2. unfold calc_overshoot.
  change (percentOvershoot c1) with (percentOvershoot c).
  destruct (Qgtb percent (percentOvershoot c) && Qgtb percent 0);
    split; reflexivity.
Qed.

(** C10: the overshoot branch of [calc] is not conditioned on
    [settlingTime]: whenever [percent] exceeds 0 and the stored
    [percentOvershoot], the call writes [percentOvershoot] and [peakTime],
    settled or not; and there is a sequence of calls in which both members
    change after the settling time has been recorded and reported, so that
    the report is stale. *)
Theorem overshoot_tracked_after_settling :
  (forall (clk : Ticks) (pv : double) (c : PIDController),
      ~ setpoint c == 0 ->
      percentOvershoot c < pv / setpoint c - 1 ->
      0 < pv / setpoint c - 1 ->
      let r := calc clk pv c in
      percentOvershoot (after r) = pv / setpoint c
      /\ peakTime (after r)
         = seconds (Timer.elapsed (at_peak_read clk) (performance_timer c)))
  /\ (exists (c : PIDController) (before : list Sample) (next : Sample),
         let settled := calc_all c before in
         let r := calc (fst next) (snd next) settled in
         hasSettled settled = true
         /\ console c before
            = [mkReport (peakTime settled) (percentOvershoot settled)
                        (settlingTime settled)]
         /\ Qeq_bool (percentOvershoot (after r)) (percentOvershoot settled)
            = false
         /\ Qeq_bool (peakTime (after r)) (peakTime settled) = false
         /\ settlingTime (after r) = settlingTime settled
         /\ printed r = []).
Proof.
  split.
  - intros clk pv c _ A B.
    destruct (calc_overshoot_members clk pv c) as [Ho Hp].
    cbv zeta in Ho, Hp. cbv zeta. rewrite Ho, Hp.
    apply Qgtb_iff in A, B. rewrite A, B. split; reflexivity.
  - exists fresh_100, [at_second 1 99], (at_second 2 150).
    repeat split; vm_compute; reflexivity.
Qed.

Lemma overshoot_tracked_after_settling_witness :
  hasSettled (calc_all fresh_100 [at_second 1 99]) = true
  /\ percentOvershoot
       (after (calc (tick 2000000000) 150
                 (calc_all fresh_100 [at_second 1 99])))
     = 150 / setpoint (calc_all fresh_100 [at_second 1 99]).
Proof.
  split; [reflexivity |].
  apply (proj1 overshoot_tracked_after_settling).
  - vm_compute. discriminate.
  - vm_compute. reflexivity.
  - vm_compute. reflexivity.
Defined.

(** The episode of the previous theorem, evaluated: the report printed at
    settling says "no peak, no overshoot", and the next call records the
    ratio 1.5 with the frozen reading of the stopped performance timer. *)
Example stale_report :
  let settled := calc_all fresh_100 [at_second 1 99] in
  let disturbed := calc_all fresh_100 [at_second 1 99; at_second 2 150] in
  console fresh_100 [at_second 1 99; at_second 2 150]
  = [mkReport (-1) 0 (seconds 1000000000)]
  /\ Qeq_list [peakTime settled; percentOvershoot settled;
               settlingTime settled] [-1; 0; 1] = true
  /\ Qeq_list [peakTime disturbed; percentOvershoot disturbed;
               settlingTime disturbed] [1; 1.5; 1] = true.
Proof.
  repeat split; vm_compute; reflexivity.
Qed.

(* ========================================================================= *)
(** * Further properties of the code *)
(* ========================================================================= *)

(* ------------------------------------------------------------------------- *)
(** ** More on the limiter *)
(* ------------------------------------------------------------------------- *)


(** X1: with inverted limits ([upperLimit < lowerLimit]) the limiter never
    returns its argument: it returns the lower limit for a value below it and
    the upper limit for every other value, so the result is not monotone. *)
Theorem limiter_inverted_limits :
  forall x lo hi : double,
    hi < lo ->
    (x < lo -> limiter x lo hi = lo) /\ (lo <= x -> limiter x lo hi = hi).
Proof.
  intros x lo hi H.
  assert (N : ~ lo == hi) by lra.
  destruct (limiter_cases x lo hi N)
    as [[? E] | [(? & ? & E) | (? & ? & E)]]; split; intros; try exact E; lra.
Qed.

Lemma limiter_inverted_limits_witness :
  limiter 5 10 0 = 10 /\ limiter 20 10 0 = 0.
Proof.
  split.
  - apply (limiter_inverted_limits 5 10 0); lra.
  - apply (limiter_inverted_limits 20 10 0); lra.
Defined.

(** X2: for [lowerLimit <= upperLimit] the limiter is monotone in the value
    it limits. *)
Theorem limiter_monotone :
  forall x y lo hi : double,
    lo <= hi -> x <= y -> limiter x lo hi <= limiter y lo hi.
Proof.
  intros x y lo hi Hle Hxy.
  destruct (Qeq_dec lo hi) as [E | N].
  - rewrite !(limiter_disabled _ lo hi E). exact Hxy.
  - destruct (limiter_cases x lo hi N)
      as [[? ->] | [(? & ? & ->) | (? & ? & ->)]];
      destruct (limiter_cases y lo hi N)
        as [[? ->] | [(? & ? & ->) | (? & ? & ->)]]; lra.
Qed.

Lemma limiter_monotone_witness :
  limiter (-3) 2 8 <= limiter 15 2 8.
Proof.
  apply (limiter_monotone (-3) 15 2 8); lra.
Defined.

(* ------------------------------------------------------------------------- *)
(** ** Constructors *)
(* ------------------------------------------------------------------------- *)

(** X3: the constructors that take no input limits disable the clamping of
    the setpoint: a controller built by any of them stores every target
    unchanged; the constructor with input limits stores the limiter's
    result. *)
Theorem constructors_and_setpoint_clamping :
  forall (n1 n2 t1 t2 : Z) (raw : PIDController) (target : double),
    (getSetpoint (targetSetpoint t1 t2 target (PIDController_default n1 n2 raw))
     = target)
    /\ (forall kp ki kd : double,
           getSetpoint
             (targetSetpoint t1 t2 target
                (PIDController_gains n1 n2 kp ki kd raw)) = target)
    /\ (forall kp ki kd lo hi : double,
           getSetpoint
             (targetSetpoint t1 t2 target
                (PIDController_gains_out n1 n2 kp ki kd lo hi raw)) = target)
    /\ (forall kp ki kd li ui lo hi : double,
           getSetpoint
             (targetSetpoint t1 t2 target
                (PIDController_full n1 n2 kp ki kd li ui lo hi raw))
           = limiter target li ui).
Proof.
  intros. repeat split.
Qed.

(** X4: every constructor other than the copy constructor assigns all the
    numeric members, whatever the storage held: the gains and limits are the
    arguments, the episode is cleared and not settled; the constructors with
    fewer arguments build what the full one builds with the missing limits
    set to [-1, -1]. *)
Theorem constructor_initial_state :
  forall (n1 n2 : Z) (kp ki kd li ui lo hi : double) (raw : PIDController),
    let c := PIDController_full n1 n2 kp ki kd li ui lo hi raw in
    (getKp c = kp /\ getKi c = ki /\ getKd c = kd
     /\ lowerInputLimit c = li /\ upperInputLimit c = ui
     /\ lowerOutputLimit c = lo /\ upperOutputLimit c = hi)
    /\ (getSetpoint c = 0 /\ lastSetpoint c = 0 /\ integrator c = 0
        /\ peakTime c = -1 /\ settlingTime c = -1 /\ percentOvershoot c = 0
        /\ hasSettled c = false)
    /\ PIDController_gains_out n1 n2 kp ki kd lo hi raw
       = PIDController_full n1 n2 kp ki kd (-1) (-1) lo hi raw
    /\ PIDController_gains n1 n2 kp ki kd raw
       = PIDController_full n1 n2 kp ki kd (-1) (-1) (-1) (-1) raw
    /\ PIDController_default n1 n2 raw
       = PIDController_full n1 n2 0 0 0 (-1) (-1) (-1) (-1) raw.
Proof.
  intros. repeat split.
Qed.

(* ------------------------------------------------------------------------- *)
(** ** The arithmetic of one call *)
(* ------------------------------------------------------------------------- *)

(** What one call of [calc] stores and returns, in terms of the object before
    the call. *)
Lemma calc_equations (clk : Ticks) (pv : double) (c : PIDController) :
  let r := calc clk pv c in
  let dt := samplingInterval clk c in
  let error := setpoint c - pv in
  integrator (after r)
  = limiter (integrator c + error * dt)
            (lowerOutputLimit c) (upperOutputLimit c)
  /\ controlVariable r
     = limiter (kp c * error + ki c * integrator (after r)
                - kd c * ((setpoint c - lastSetpoint c) / dt))
               (lowerOutputLimit c) (upperOutputLimit c)
  /\ lastSetpoint (after r) = setpoint c
  /\ sample_timer (after r) = Timer.mk false (at_sample_start clk).
Proof.
  cbv zeta. unfold calc, calc_overshoot, calc_settling, calc_pid.
  destruct (Qgtb _ _ && Qgtb _ _); destruct (Qltb _ _ && Qeq_bool _ _);
    repeat split.
Qed.

Lemma calc_all_app (xs ys : list Sample) :
  forall c : PIDController,
    calc_all c (xs ++ ys) = calc_all (calc_all c xs) ys.
Proof.
  induction xs as [| [clk pv] rest IH]; intros c; cbn; [reflexivity | apply IH].
Qed.

Lemma same_configuration_after_calc (clk : Ticks) (pv : double)
    (c : PIDController) :
  same_configuration c (after (calc clk pv c)).
Proof.
  destruct (calc_frame clk pv c) as (A & B & C & D & E & F & G & H).
  unfold same_configuration, getKp, getKi, getKd, getSetpoint.
  repeat split; assumption.
Qed.

Lemma same_configuration_trans (a b c : PIDController) :
  same_configuration a b -> same_configuration b c -> same_configuration a c.
Proof.
  unfold same_configuration.
  intros (A1 & A2 & A3 & A4 & A5 & A6 & A7 & A8)
         (B1 & B2 & B3 & B4 & B5 & B6 & B7 & B8).
  repeat split; congruence.
Qed.

Lemma calc_all_keeps_configuration (samples : list Sample) :
  forall c : PIDController, same_configuration c (calc_all c samples).
Proof.
  induction samples as [| [clk pv] rest IH]; intros c; cbn [calc_all].
  - unfold same_configuration. repeat split.
  - apply same_configuration_trans with (b := after (calc clk pv c)).
    + apply same_configuration_after_calc.
    + apply IH.
Qed.

(** X5: no sequence of [calc] calls changes the gains, the four limits or
    the setpoint: the accessors answer after the calls what they answered
    before, whatever the samples and the clock. *)
Theorem calc_never_changes_configuration :
  forall (samples : list Sample) (c : PIDController),
    getKp (calc_all c samples) = getKp c
    /\ getKi (calc_all c samples) = getKi c
    /\ getKd (calc_all c samples) = getKd c
    /\ getSetpoint (calc_all c samples) = getSetpoint c
    /\ lowerInputLimit (calc_all c samples) = lowerInputLimit c
    /\ upperInputLimit (calc_all c samples) = upperInputLimit c
    /\ lowerOutputLimit (calc_all c samples) = lowerOutputLimit c
    /\ upperOutputLimit (calc_all c samples) = upperOutputLimit c.
Proof.
  intros samples c. exact (calc_all_keeps_configuration samples c).
Qed.

(* ------------------------------------------------------------------------- *)
(** ** The integrator and the output *)
(* ------------------------------------------------------------------------- *)



(* ------------------------------------------------------------------------- *)
(** ** Episodes: settling and reports *)
(* ------------------------------------------------------------------------- *)

Lemma console_cons (clk : Ticks) (pv : double) (rest : list Sample)
    (c : PIDController) :
  console c ((clk, pv) :: rest)
  = printed (calc clk pv c) ++ console (after (calc clk pv c)) rest.
Proof. reflexivity. Qed.

Lemma settled_console_empty (samples : list Sample) (c : PIDController) :
  hasSettled c = true ->
  console c samples = [] /\ hasSettled (calc_all c samples) = true.
Proof.
  intros H. destruct (settled_persists samples c H) as (_ & P & S).
  split.
  - unfold console. rewrite P. clear.
    induction (length samples); [reflexivity | exact IHn].
  - rewrite (hasSettled_ext _ _ S). exact H.
Qed.

Lemma unsettled_console (samples : list Sample) :
  forall (c : PIDController) (t : Z),
    hasSettled c = false ->
    performance_timer c = Timer.mk false t ->
    clock_not_before t samples ->
    (hasSettled (calc_all c samples) = false /\ console c samples = [])
    \/ (hasSettled (calc_all c samples) = true
        /\ exists rep, console c samples = [rep]).
Proof.
  induction samples as [| [clk pv] rest IH]; intros c t Hc Ht Hclk.
  - left. split; [exact Hc | reflexivity].
  - inversion Hclk as [| s l Hhd Htl]; subst. cbn [fst] in Hhd.
    rewrite console_cons. cbn [calc_all].
    destruct (calc_settling_cases clk pv c)
      as [(_ & _ & Hs & Hp & _) | (_ & Hs & Hp & Hpt)]; cbv zeta in *.
    + right.
      assert (Hset : hasSettled (after (calc clk pv c)) = true).
      { apply hasSettled_true_iff. rewrite Hs, Ht.
        cbn [Timer.elapsed Timer.is_stopped Timer.mark].
        assert (0 <= seconds (at_perf_stop clk - t))
          by (apply seconds_nonneg; lia).
        lra. }
      destruct (settled_console_empty rest _ Hset) as [E F].
      rewrite E, Hp. split; [exact F | eexists; reflexivity].
    + rewrite Hp. cbn [app].
      apply (IH _ t); [| congruence | exact Htl].
      rewrite (hasSettled_ext _ _ Hs). exact Hc.
Qed.

(** X11: an episode prints at most one report: after [targetSetpoint], over
    any sequence of [calc] calls on a clock that does not go back before the
    start of the episode, the console holds one report if the controller has
    settled and none if it has not. *)
Theorem one_report_per_episode :
  forall (t1 t2 : Z) (target : double) (c0 : PIDController)
         (samples : list Sample),
    let c := targetSetpoint t1 t2 target c0 in
    ~ getSetpoint c == 0 ->
    clock_not_before t2 samples ->
    (length (console c samples) <= 1)%nat
    /\ (hasSettled (calc_all c samples) = true
        <-> length (console c samples) = 1%nat).
Proof.
  intros t1 t2 target c0 samples c _ Hclk.
  destruct (unsettled_console samples c t2) as [[H E] | [H [rep E]]];
    try reflexivity; try exact Hclk; rewrite E, H; cbn [length].
  - split; [lia | split; discriminate].
  - split; [lia | split; reflexivity].
Qed.

Lemma one_report_per_episode_witness :
  (length (console fresh_100 wandering_samples) <= 1)%nat.
Proof.
  apply (one_report_per_episode 0 0 100 fresh wandering_samples).
  - vm_compute. discriminate.
  - repeat constructor; cbn; lia.
Defined.

(** X12: a controller that has not settled does not settle, and prints
    nothing, as long as every sample fails the 5% test of [calc]. *)
Theorem no_settling_outside_band :
  forall (samples : list Sample) (c : PIDController),
    ~ getSetpoint c == 0 ->
    hasSettled c = false ->
    Forall (fun s : Sample => ~ in_band (getSetpoint c) (snd s)) samples ->
    hasSettled (calc_all c samples) = false /\ console c samples = [].
Proof.
  induction samples as [| [clk pv] rest IH]; intros c Hsp Hc Hall.
  - split; [exact Hc | reflexivity].
  - inversion Hall as [| s l Hhd Htl]; subst. cbn [snd] in Hhd.
    destruct (calc_outside_band clk pv c Hhd) as (A & P & _).
    destruct (calc_frame clk pv c) as (_ & _ & _ & S & _).
    cbv zeta in A, P, S.
    rewrite console_cons, P. cbn [calc_all app].
    unfold getSetpoint in *.
    apply IH.
    + rewrite S. exact Hsp.
    + rewrite A. exact Hc.
    + rewrite S. exact Htl.
Qed.

Lemma no_settling_outside_band_witness :
  hasSettled (calc_all fresh_100 edge_samples) = false
  /\ console fresh_100 edge_samples = [].
Proof.
  apply (no_settling_outside_band edge_samples fresh_100).
  - vm_compute. discriminate.
  - reflexivity.
  - repeat constructor; unfold in_band; vm_compute; discriminate.
Defined.

(* ------------------------------------------------------------------------- *)
(** ** Episodes: peaks *)
(* ------------------------------------------------------------------------- *)

(** What [calc] does to [settlingTime] and to the performance timer. *)
Lemma calc_settling_members (clk : Ticks) (pv : double) (c : PIDController) :
  let settles :=
    Qltb (abs (pv / setpoint c - 1)) 0.05 && Qeq_bool (settlingTime c) (-1) in
  let r := calc clk pv c in
  settlingTime (after r)
  = (if settles
     then seconds (Timer.elapsed (at_perf_stop clk) (performance_timer c))
     else settlingTime c)
  /\ performance_timer (after r)
     = (if settles
        then Timer.stop (at_perf_stop clk) (performance_timer c)
        else performance_timer c).
Proof.
  cbv zeta. rewrite calc_stages. cbv zeta. cbn [after].
  set (c1 := set_sample_timer _ c).
  set (percent := pv / setpoint c - 1).
  destruct (calc_overshoot_keeps clk pv percent c1) as (Hs & Hp & _).
  cbv zeta in Hs, Hp.
  change (settlingTime c1) with (settlingTime c) in Hs.
  change (performance_timer c1) with (performance_timer c) in Hp.
  set (c2 := calc_overshoot clk pv percent c1) in *.
  destruct (calc_pid_keeps clk pv (fst (calc_settling clk percent c2)))
    as (K1 & _ & _ & K4).
  cbv zeta in K1, K4. rewrite K1, K4.
  unfold calc_settling. rewrite Hs.
  destruct (Qltb (abs percent) 0.05 && Qeq_bool (settlingTime c) (-1));
    cbn [fst]; rewrite <- ?Hs, <- Hp; split; reflexivity.
Qed.

Lemma frozen_after_calc (clk : Ticks) (pv : double) (c : PIDController) :
  frozen_at_settling c -> frozen_at_settling (after (calc clk pv c)).
Proof.
  intros I H.
  destruct (calc_settling_members clk pv c) as [Hs Hp].
  cbv zeta in Hs, Hp. rewrite Hs, Hp.
  destruct (Qltb _ _ && Qeq_bool _ _) eqn:B.
  - split; reflexivity.
  - apply I. rewrite <- H. symmetry. apply hasSettled_ext. exact Hs.
Qed.

Lemma frozen_after_calc_all (samples : list Sample) :
  forall c : PIDController,
    frozen_at_settling c -> frozen_at_settling (calc_all c samples).
Proof.
  induction samples as [| [clk pv] rest IH]; intros c I; cbn [calc_all].
  - exact I.
  - apply IH. apply frozen_after_calc. exact I.
Qed.

(** X14: every peak recorded after the episode has settled carries the
    settling time as its peak time: settling stops the performance timer, and
    the overshoot branch keeps reading it. *)
Theorem late_peaks_carry_settling_time :
  forall (t1 t2 : Z) (target : double) (c0 : PIDController)
         (before : list Sample) (clk : Ticks) (pv : double),
    let c := calc_all (targetSetpoint t1 t2 target c0) before in
    let r := calc clk pv c in
    ~ getSetpoint c == 0 ->
    hasSettled c = true ->
    new_peak pv c ->
    peakTime (after r) = settlingTime c
    /\ settlingTime (after r) = settlingTime c
    /\ percentOvershoot (after r) = pv / getSetpoint c.
Proof.
  intros t1 t2 target c0 before clk pv c r _ Hset [A B].
  assert (I : frozen_at_settling c).
  { apply frozen_after_calc_all. intros H. discriminate H. }
  destruct (I Hset) as [Hstop Hmark].
  destruct (calc_overshoot_members clk pv c) as [Ho Hp].
  destruct (calc_when_settled clk pv c Hset) as (_ & _ & Hs).
  cbv zeta in Ho, Hp, Hs. fold r in Ho, Hp, Hs.
  apply Qgtb_iff in A, B. rewrite A, B in Ho, Hp. cbn [andb] in Ho, Hp.
  rewrite Hp, Ho, Hs, Hmark. unfold Timer.elapsed. rewrite Hstop.
  repeat split.
Qed.

Lemma late_peaks_carry_settling_time_witness :
  peakTime
    (after (calc (tick 7000000000) 150
              (calc_all (targetSetpoint 0 0 100 fresh)
                        [at_second 1 0; at_second 2 99])))
  = settlingTime
      (calc_all (targetSetpoint 0 0 100 fresh)
                [at_second 1 0; at_second 2 99]).
Proof.
  assert (H1 : ~ getSetpoint
                   (calc_all (targetSetpoint 0 0 100 fresh)
                             [at_second 1 0; at_second 2 99]) == 0)
    by (vm_compute; discriminate).
  assert (H2 : hasSettled
                 (calc_all (targetSetpoint 0 0 100 fresh)
                           [at_second 1 0; at_second 2 99]) = true)
    by (vm_compute; reflexivity).
  assert (H3 : new_peak 150
                 (calc_all (targetSetpoint 0 0 100 fresh)
                           [at_second 1 0; at_second 2 99]))
    by (split; vm_compute; reflexivity).
  exact (proj1 (late_peaks_carry_settling_time 0 0 100 fresh
                  [at_second 1 0; at_second 2 99] (tick 7000000000) 150
                  H1 H2 H3)).
Defined.

Lemma calc_overshoot_grows (clk : Ticks) (pv : double) (c : PIDController) :
  let p := percentOvershoot c in
  let p' := percentOvershoot (after (calc clk pv c)) in
  p <= p' /\ (p' = p \/ (1 < p' /\ p + 1 < p')).
Proof.
  destruct (calc_overshoot_members clk pv c) as [Ho _].
  cbv zeta in *. rewrite Ho.
  destruct (Qgtb (pv / setpoint c - 1) (percentOvershoot c)) eqn:A;
    destruct (Qgtb (pv / setpoint c - 1) 0) eqn:B; cbn [andb];
    try (split; [lra | left; reflexivity]).
  apply Qgtb_iff in A, B.
  set (ratio := pv / setpoint c) in *. split; [lra | right; lra].
Qed.

Lemma calc_all_overshoot_grows (samples : list Sample) :
  forall c : PIDController,
    let p := percentOvershoot c in
    let p' := percentOvershoot (calc_all c samples) in
    p <= p' /\ (p' = p \/ (1 < p' /\ p + 1 < p')).
Proof.
  induction samples as [| [clk pv] rest IH]; intros c; cbn [calc_all].
  - cbv zeta. split; [lra | left; reflexivity].
  - destruct (calc_overshoot_grows clk pv c) as [A [B | [B1 B2]]];
      destruct (IH (after (calc clk pv c))) as [C [D | [D1 D2]]];
      cbv zeta in *.
    + split; [lra | left; congruence].
    + split; [lra | right; rewrite <- B; split; lra].
    + split; [lra | right; rewrite D; split; lra].
    + split; [lra | right; split; lra].
Qed.

(** X15: within an episode the stored [percentOvershoot] never decreases;
    it is 0 until the first peak is recorded, and above 1 afterwards (what is
    stored is the ratio, not [percent]); every later update raises it by more
    than 1. *)
Theorem percentOvershoot_grows_in_steps :
  forall (t1 t2 : Z) (target : double) (c0 : PIDController)
         (before later : list Sample),
    let c := targetSetpoint t1 t2 target c0 in
    let p := percentOvershoot (calc_all c before) in
    let p' := percentOvershoot (calc_all c (before ++ later)) in
    ~ getSetpoint c == 0 ->
    (p = 0 \/ 1 < p)
    /\ p <= p'
    /\ (p' = p \/ p + 1 < p').
Proof.
  intros t1 t2 target c0 before later c p p' _.
  destruct (calc_all_overshoot_grows before c) as [A B].
  destruct (calc_all_overshoot_grows later (calc_all c before)) as [C D].
  cbv zeta in A, B, C, D. rewrite <- calc_all_app in C, D.
  fold p in A, B, C, D. fold p' in C, D.
  change (percentOvershoot c) with 0 in A, B.
  split; [| split].
  - destruct B as [B | [B _]]; [left | right]; assumption.
  - exact C.
  - destruct D as [D | [_ D]]; [left | right]; assumption.
Qed.

Lemma percentOvershoot_grows_in_steps_witness :
  percentOvershoot (calc_all tracking_10 [at_second 1 11])
  <= percentOvershoot
       (calc_all tracking_10 ([at_second 1 11] ++ [at_second 2 13])).
Proof.
  apply (percentOvershoot_grows_in_steps 0 0 10 fresh
           [at_second 1 11] [at_second 2 13]).
  vm_compute. discriminate.
Defined.

(* ------------------------------------------------------------------------- *)
(** ** reset *)
(* ------------------------------------------------------------------------- *)

Lemma numeric_members_reset (t1 t2 : Z) (c : PIDController) :
  numeric_members (reset t1 t2 c)
  = [kp c; ki c; kd c; 0; 0;
     lowerInputLimit c; upperInputLimit c;
     lowerOutputLimit c; upperOutputLimit c; 0; -1; -1; 0].
Proof. reflexivity. Qed.

(** X16: [reset] undoes an episode up to the timers: after [targetSetpoint]
    and any sequence of [calc] calls, [reset] leaves the same thirteen
    numbers as a [reset] of the controller before the episode; and [reset] is
    idempotent, timers included: a second [reset], at any clock value,
    changes nothing. *)
Theorem reset_undoes_episode :
  (forall (t1 t2 u1 u2 v1 v2 : Z) (target : double) (c : PIDController)
          (samples : list Sample),
      numeric_members
        (reset u1 u2 (calc_all (targetSetpoint t1 t2 target c) samples))
      = numeric_members (reset v1 v2 c))
  /\ (forall (t1 t2 u1 u2 : Z) (c : PIDController),
         reset u1 u2 (reset t1 t2 c) = reset t1 t2 c).
Proof.
  split.
  - intros t1 t2 u1 u2 v1 v2 target c samples.
    rewrite !numeric_members_reset.
    destruct (calc_all_keeps_configuration samples
                (targetSetpoint t1 t2 target c))
      as (A & B & C & _ & E & F & G & H).
    unfold getKp, getKi, getKd in A, B, C.
    rewrite A, B, C, E, F, G, H. reflexivity.
  - intros t1 t2 u1 u2 [? ? ? ? ? ? ? ? ? ? ? ? ? [s1 m1] [s2 m2]].
    vm_compute. reflexivity.
Qed.

(* ------------------------------------------------------------------------- *)
(** ** The output without limits *)
(* ------------------------------------------------------------------------- *)

(** X17: with the output limits disabled (equal), a call with a positive
    sampling interval [dt] returns the unclamped PID sum
    [kp * e + ki * (I + e * dt) - kd * (setpoint - lastSetpoint) / dt], where
    [e] is the error and [I] the integrator before the call, and stores
    [I + e * dt]. *)
Theorem unlimited_output_is_pid_sum :
  forall (clk : Ticks) (pv : double) (c : PIDController),
    let r := calc clk pv c in
    let dt := samplingInterval clk c in
    let e := getSetpoint c - pv in
    lowerOutputLimit c == upperOutputLimit c ->
    0 < dt ->
    integrator (after r) = integrator c + e * dt
    /\ controlVariable r
       == getKp c * e + getKi c * (integrator c + e * dt)
          - getKd c * ((getSetpoint c - lastSetpoint c) / dt).
Proof.
  intros clk pv c r dt e Hlim _.
  destruct (calc_equations clk pv c) as (Hi & Ho & _).
  cbv zeta in Hi, Ho. fold r in Hi, Ho. fold dt in Hi, Ho.
  rewrite (limiter_disabled _ _ _ Hlim) in Hi.
  rewrite (limiter_disabled _ _ _ Hlim) in Ho.
  rewrite Ho, Hi. unfold getKp, getKi, getKd, getSetpoint, e.
  split; reflexivity.
Qed.

Lemma unlimited_output_is_pid_sum_witness :
  controlVariable (calc (tick 1000000000) 4 unlimited_10) == 18.
Proof.
  assert (H1 : lowerOutputLimit unlimited_10 == upperOutputLimit unlimited_10)
    by reflexivity.
  assert (H2 : 0 < samplingInterval (tick 1000000000) unlimited_10)
    by (vm_compute; reflexivity).
  rewrite (proj2 (unlimited_output_is_pid_sum (tick 1000000000) 4
                    unlimited_10 H1 H2)).
  vm_compute. reflexivity.
Defined.

(* ========================================================================= *)
(** * Properties on binary64 *)
(* ========================================================================= *)

(* ------------------------------------------------------------------------- *)
(** ** Comparisons of doubles *)
(* ------------------------------------------------------------------------- *)

Section Binary64.

#[local] Set Warnings "-inexact-float".
Local Open Scope float_scope.

Lemma SFcompare_antisym (x y : spec_float) :
  SFcompare y x = option_map CompOpp (SFcompare x y).
Proof.
  destruct x as [sx | sx | | sx mx ex], y as [sy | sy | | sy my ey];
    cbn; try reflexivity;
    try (destruct sx; reflexivity); try (destruct sy; reflexivity);
    try (destruct sx, sy; reflexivity).
  destruct sx, sy; try reflexivity;
    rewrite (Z.compare_antisym ey ex);
    destruct (ey ?= ex)%Z; cbn; try reflexivity;
    rewrite (Pos.compare_cont_antisym mx my Eq); cbn;
    destruct (Pos.compare_cont Eq mx my); reflexivity.
Qed.

Lemma SFcompare_refl (x : spec_float) :
  SFcompare x x = match x with S754_nan => None | _ => Some Eq end.
Proof.
  destruct x as [s | s | | s m e]; cbn; try reflexivity.
  - destruct s; reflexivity.
  - rewrite Z.compare_refl, Pos.compare_cont_refl. destruct s; reflexivity.
Qed.

Lemma SFcompare_none (x y : spec_float) :
  SFcompare x y = None <-> x = S754_nan \/ y = S754_nan.
Proof.
  destruct x as [sx | sx | | sx mx ex], y as [sy | sy | | sy my ey];
    cbn; split; intros H; try discriminate; auto;
    destruct H; discriminate.
Qed.

Lemma ltb_fcompare (a b : float) :
  (a <? b) = match fcompare a b with Some Lt => true | _ => false end.
Proof. apply ltb_spec. Qed.

Lemma leb_fcompare (a b : float) :
  (a <=? b)
  = match fcompare a b with Some (Lt | Eq) => true | _ => false end.
Proof. apply leb_spec. Qed.

Lemma eqb_fcompare (a b : float) :
  (a =? b) = match fcompare a b with Some Eq => true | _ => false end.
Proof. apply eqb_spec. Qed.

Lemma fcompare_antisym (a b : float) :
  fcompare b a = option_map CompOpp (fcompare a b).
Proof. apply SFcompare_antisym. Qed.

Lemma is_nan_fcompare (a : float) :
  is_nan a = match fcompare a a with None => true | _ => false end.
Proof.
  unfold is_nan. rewrite eqb_fcompare. unfold fcompare.
  rewrite SFcompare_refl. destruct (Prim2SF a); reflexivity.
Qed.

Lemma fcompare_none (a b : float) :
  fcompare a b = None <-> is_nan a = true \/ is_nan b = true.
Proof.
  rewrite !is_nan_fcompare. unfold fcompare.
  rewrite SFcompare_none, !SFcompare_refl.
  destruct (Prim2SF a), (Prim2SF b); split; intros [H | H];
    try discriminate; auto.
Qed.

Lemma fcompare_some_not_nan (a b : float) (c : comparison) :
  fcompare a b = Some c -> is_nan a = false /\ is_nan b = false.
Proof.
  intros H.
  destruct (is_nan a) eqn:A; destruct (is_nan b) eqn:B; auto;
    assert (N : fcompare a b = None) by (apply fcompare_none; auto);
    congruence.
Qed.

Lemma fcompare_not_nan (a b : float) :
  is_nan a = false -> is_nan b = false -> exists c, fcompare a b = Some c.
Proof.
  intros A B. destruct (fcompare a b) as [c |] eqn:E; [eauto |].
  apply fcompare_none in E. destruct E; congruence.
Qed.

Lemma fcompare_refl (a : float) :
  is_nan a = false -> fcompare a a = Some Eq.
Proof.
  intros A. rewrite is_nan_fcompare in A. unfold fcompare in *.
  rewrite SFcompare_refl in *. destruct (Prim2SF a); congruence.
Qed.

(* ------------------------------------------------------------------------- *)
(** ** The limiter on binary64 *)
(* ------------------------------------------------------------------------- *)

(** The outcomes of the limiter when [lowerLimit < upperLimit]. *)
Lemma b64_limiter_cases (x lo hi : float) :
  (lo <? hi) = true ->
  (is_nan lo = false /\ is_nan hi = false)
  /\ (((x <? lo) = true /\ B64.limiter x lo hi = lo)
      \/ ((x <? lo) = false /\ (hi <? x) = true
          /\ B64.limiter x lo hi = hi)
      \/ ((x <? lo) = false /\ (hi <? x) = false
          /\ B64.limiter x lo hi = x)).
Proof.
  intros H. rewrite ltb_fcompare in H.
  destruct (fcompare lo hi) as [[] |] eqn:E; try discriminate.
  split; [exact (fcompare_some_not_nan _ _ _ E) |].
  unfold B64.limiter. rewrite (eqb_fcompare lo hi), E.
  destruct (x <? lo); [left; auto |].
  destruct (hi <? x); [right; left; auto | right; right; auto].
Qed.

Lemma b64_in_range_bounds (lo hi : float) :
  (lo <? hi) = true ->
  B64.in_range lo hi lo = true /\ B64.in_range lo hi hi = true.
Proof.
  intros H. unfold B64.in_range. rewrite ltb_fcompare in H.
  destruct (fcompare lo hi) as [[] |] eqn:E; try discriminate.
  destruct (fcompare_some_not_nan _ _ _ E) as [A B].
  rewrite !leb_fcompare, E, (fcompare_refl _ A), (fcompare_refl _ B).
  split; reflexivity.
Qed.

Lemma b64_in_range_between (lo hi x : float) :
  (lo <? hi) = true ->
  is_nan x = false ->
  (x <? lo) = false -> (hi <? x) = false ->
  B64.in_range lo hi x = true.
Proof.
  intros H N A B. unfold B64.in_range.
  rewrite ltb_fcompare in H, A, B. rewrite !leb_fcompare.
  destruct (fcompare lo hi) as [[] |] eqn:E; try discriminate.
  destruct (fcompare_some_not_nan _ _ _ E) as [Nlo Nhi].
  destruct (fcompare_not_nan _ _ N Nlo) as [c1 E1].
  destruct (fcompare_not_nan _ _ Nhi N) as [c2 E2].
  rewrite E1 in A. rewrite E2 in B.
  rewrite (fcompare_antisym x lo), E1.
  rewrite (fcompare_antisym hi x), E2.
  destruct c1, c2; try discriminate; reflexivity.
Qed.


(** For [lowerLimit < upperLimit] the limiter's result is in range unless
    the value is NaN, which it returns. *)
Lemma b64_limiter_in_range_or_nan (x lo hi : float) :
  (lo <? hi) = true ->
  B64.in_range_or_nan lo hi (B64.limiter x lo hi) = true
  /\ is_nan (B64.limiter x lo hi) = is_nan x
  /\ (is_nan x = false -> B64.in_range lo hi (B64.limiter x lo hi) = true)
  /\ (is_nan x = true -> B64.limiter x lo hi = x).
Proof.
  intros H.
  destruct (b64_in_range_bounds lo hi H) as [Rlo Rhi].
  destruct (b64_limiter_cases x lo hi H)
    as [[Nlo Nhi] [[A ->] | [(A & B & ->) | (A & B & ->)]]];
    unfold B64.in_range_or_nan.
  - assert (Nx : is_nan x = false).
    { rewrite ltb_fcompare in A.
      destruct (fcompare x lo) as [c |] eqn:E; [| discriminate].
      exact (proj1 (fcompare_some_not_nan _ _ _ E)). }
    rewrite Rlo, Nlo, Nx. repeat split; auto. discriminate.
  - assert (Nx : is_nan x = false).
    { rewrite ltb_fcompare in B.
      destruct (fcompare hi x) as [c |] eqn:E; [| discriminate].
      exact (proj2 (fcompare_some_not_nan _ _ _ E)). }
    rewrite Rhi, Nhi, Nx. repeat split; auto. discriminate.
  - destruct (is_nan x) eqn:Nx.
    + rewrite orb_true_r. repeat split; auto. discriminate.
    + rewrite (b64_in_range_between lo hi x H Nx A B). repeat split; auto.
Qed.




(* ------------------------------------------------------------------------- *)
(** ** One call of calc on binary64 *)
(* ------------------------------------------------------------------------- *)

(** [calc] never writes the gains, the limits or the setpoint. *)
Lemma b64_calc_frame (clk : Ticks) (pv : float) (c : B64.PIDController) :
  let c' := B64.after (B64.calc clk pv c) in
  B64.kp c' = B64.kp c /\ B64.ki c' = B64.ki c /\ B64.kd c' = B64.kd c
  /\ B64.setpoint c' = B64.setpoint c
  /\ B64.lowerInputLimit c' = B64.lowerInputLimit c
  /\ B64.upperInputLimit c' = B64.upperInputLimit c
  /\ B64.lowerOutputLimit c' = B64.lowerOutputLimit c
  /\ B64.upperOutputLimit c' = B64.upperOutputLimit c.
Proof.
  cbv zeta.
  unfold B64.calc, B64.calc_overshoot, B64.calc_settling, B64.calc_pid.
  destruct (_ && _); destruct (_ && _); repeat split.
Qed.

(** What one call stores and returns, in terms of the object before it. *)
Lemma b64_calc_equations (clk : Ticks) (pv : float) (c : B64.PIDController) :
  let r := B64.calc clk pv c in
  let dt := B64.samplingInterval clk c in
  let error := B64.setpoint c - pv in
  B64.integrator (B64.after r)
  = B64.limiter (B64.integrator c + error * dt)
                (B64.lowerOutputLimit c) (B64.upperOutputLimit c)
  /\ B64.controlVariable r
     = B64.limiter
         (B64.kp c * error + B64.ki c * B64.integrator (B64.after r)
          - B64.kd c * ((B64.setpoint c - B64.lastSetpoint c) / dt))
         (B64.lowerOutputLimit c) (B64.upperOutputLimit c)
  /\ B64.lastSetpoint (B64.after r) = B64.setpoint c
  /\ B64.sample_timer (B64.after r) = Timer.mk false (at_sample_start clk).
Proof.
  cbv zeta.
  unfold B64.calc, B64.calc_overshoot, B64.calc_settling, B64.calc_pid.
  destruct (_ && _); destruct (_ && _); repeat split.
Qed.

Lemma b64_calc_all_frame (samples : list B64.Sample) :
  forall c : B64.PIDController,
    B64.setpoint (B64.calc_all c samples) = B64.setpoint c
    /\ B64.lowerOutputLimit (B64.calc_all c samples) = B64.lowerOutputLimit c
    /\ B64.upperOutputLimit (B64.calc_all c samples) = B64.upperOutputLimit c.
Proof.
  induction samples as [| [clk pv] rest IH]; intros c; cbn [B64.calc_all].
  - repeat split.
  - destruct (IH (B64.after (B64.calc clk pv c))) as (A & B & C).
    destruct (b64_calc_frame clk pv c) as (_ & _ & _ & S & _ & _ & L & U).
    cbv zeta in S, L, U. rewrite A, B, C, S, L, U. repeat split.
Qed.

(* ------------------------------------------------------------------------- *)
(** ** Anti-windup on binary64 *)
(* ------------------------------------------------------------------------- *)

Lemma b64_calc_within_limits (clk : Ticks) (pv : float)
    (c : B64.PIDController) :
  (B64.lowerOutputLimit c <? B64.upperOutputLimit c) = true ->
  B64.within_limits_or_nan (B64.lowerOutputLimit c) (B64.upperOutputLimit c)
                           (B64.calc clk pv c) = true.
Proof.
  intros H.
  destruct (b64_calc_equations clk pv c) as (Hi & Ho & _).
  cbv zeta in Hi, Ho. unfold B64.within_limits_or_nan.
  rewrite Ho, Hi.
  rewrite !(proj1 (b64_limiter_in_range_or_nan _ _ _ H)). reflexivity.
Qed.

Lemma b64_calc_trace_within_limits (samples : list B64.Sample) :
  forall c : B64.PIDController,
    (B64.lowerOutputLimit c <? B64.upperOutputLimit c) = true ->
    forallb (B64.within_limits_or_nan (B64.lowerOutputLimit c)
                                      (B64.upperOutputLimit c))
            (B64.calc_trace c samples) = true.
Proof.
  induction samples as [| [clk pv] rest IH]; intros c H;
    cbn [B64.calc_trace forallb].
  - reflexivity.
  - rewrite (b64_calc_within_limits clk pv c H). cbn [andb].
    destruct (b64_calc_frame clk pv c) as (_ & _ & _ & _ & _ & _ & L & U).
    cbv zeta in L, U. rewrite <- L, <- U. apply IH. rewrite L, U. exact H.
Qed.

(** C3, as stated, fails on the code's doubles: after
    [setOutputLimits(-10, 10)] and [targetSetpoint(1e308)], with gains
    (1, 2, 3), the call [calc(-1e308)] one second later returns NaN (the
    proportional and the derivative term both overflow, and their difference
    is NaN, which the limiter returns); and a NaN process variable makes the
    returned value and the stored integrator NaN. *)
Lemma b64_anti_windup_escapes :
  let c := B64.targetSetpoint 0 0 1e308 B64.limited in
  let r := B64.calc (tick 1000000000) (-1e308) c in
  let r' := B64.calc (tick 1000000000) nan c in
  (B64.getSetpoint c =? 0) = false
  /\ (0 <? B64.samplingInterval (tick 1000000000) c) = true
  /\ is_nan (B64.controlVariable r) = true
  /\ B64.in_range (-10) 10 (B64.controlVariable r) = false
  /\ is_nan (B64.controlVariable r') = true
  /\ is_nan (B64.integrator (B64.after r')) = true
  /\ B64.in_range (-10) 10 (B64.integrator (B64.after r')) = false.
Proof.
  repeat split; vm_compute; reflexivity.
Qed.

(** C3, amended: after [setOutputLimits(-10, 10)], in every sequence of
    [calc] calls, whatever the setpoint, the samples and the sampling
    intervals, every returned value lies in [[-10, 10]] or is NaN, and the
    integrator stored by every call lies in [[-10, 10]] or is NaN. *)
Theorem b64_anti_windup_bounded_or_nan :
  forall (c0 : B64.PIDController) (samples : list B64.Sample),
    forallb (B64.within_limits_or_nan (-10) 10)
            (B64.calc_trace (B64.setOutputLimits (-10) 10 c0) samples) = true.
Proof.
  intros c0 samples.
  apply (b64_calc_trace_within_limits samples
           (B64.setOutputLimits (-10) 10 c0)).
  reflexivity.
Qed.

(* ------------------------------------------------------------------------- *)
(** ** The sign of a time reading *)
(* ------------------------------------------------------------------------- *)

Lemma binary_round_aux_sign (p e : Z) (sx : bool) (mx ex : Z) (lx : location) :
  match binary_round_aux p e sx mx ex lx with
  | S754_zero s | S754_infinity s | S754_finite s _ _ => s = sx
  | S754_nan => True
  end.
Proof.
  unfold binary_round_aux.
  destruct (shr_fexp p e mx ex lx) as [r1 e1].
  destruct (shr_fexp p e _ e1 loc_Exact) as [r2 e2].
  destruct (shr_m r2); [reflexivity | | exact I].
  destruct (e2 <=? e - p)%Z; reflexivity.
Qed.

Lemma binary_normalize_nonneg_sign (p e m : Z) :
  (0 <= m)%Z ->
  match binary_normalize p e m 0 false with
  | S754_zero s | S754_infinity s | S754_finite s _ _ => s = false
  | S754_nan => True
  end.
Proof.
  intros H. destruct m as [| m | m]; cbn [binary_normalize].
  - reflexivity.
  - unfold binary_round. destruct (shl_align _ _ _) as [mz ez].
    apply binary_round_aux_sign.
  - lia.
Qed.

Lemma SFdiv_sign (p e : Z) (x : spec_float) (my : positive) (ey : Z) :
  match x with
  | S754_zero s | S754_infinity s | S754_finite s _ _ => s = false
  | S754_nan => True
  end ->
  match SFdiv p e x (S754_finite false my ey) with
  | S754_zero s | S754_infinity s | S754_finite s _ _ => s = false
  | S754_nan => True
  end.
Proof.
  destruct x as [s | s | | s m ex]; intros H; cbn [SFdiv]; subst;
    try reflexivity; try exact I.
  destruct (SFdiv_core_binary p e (Z.pos m) ex (Z.pos my) ey) as [[mz ez] lz].
  apply (binary_round_aux_sign p e (xorb false false)).
Qed.

(** A time reading that is not negative is never mistaken for the sentinel
    [-1]. *)
Lemma b64_seconds_not_sentinel (wall : Z) :
  (0 <= wall)%Z -> (B64.seconds wall =? -1) = false.
Proof.
  intros H. unfold B64.seconds, B64.of_wall.
  destruct (wall <? 0)%Z eqn:N; [apply Z.ltb_lt in N; lia |].
  rewrite eqb_spec, div_spec, of_uint63_spec.
  pose proof (binary_normalize_nonneg_sign prec emax
                (Uint63.to_Z (Uint63.of_Z wall))
                (proj1 (Uint63.to_Z_bounded _))) as S.
  change (Prim2SF 1e9) with (S754_finite false 8388608000000000 (-23)).
  change (Prim2SF (-1)) with (S754_finite true 4503599627370496 (-52)).
  pose proof (SFdiv_sign prec emax _ 8388608000000000 (-23) S) as D.
  unfold SF64div.
  destruct (SFdiv prec emax _ _) as [s | s | | s m e];
    try subst s; reflexivity.
Qed.

(* ------------------------------------------------------------------------- *)
(** ** Settling on binary64 *)
(* ------------------------------------------------------------------------- *)

(** What one call does to the settling members and what it prints. *)
Lemma b64_calc_settling_members (clk : Ticks) (pv : float)
    (c : B64.PIDController) :
  let settles :=
    B64.in_band (B64.setpoint c) pv && (B64.settlingTime c =? -1) in
  let r := B64.calc clk pv c in
  B64.settlingTime (B64.after r)
  = (if settles
     then B64.seconds
            (Timer.elapsed (at_perf_stop clk) (B64.performance_timer c))
     else B64.settlingTime c)
  /\ B64.performance_timer (B64.after r)
     = (if settles
        then Timer.stop (at_perf_stop clk) (B64.performance_timer c)
        else B64.performance_timer c)
  /\ B64.printed r
     = (if settles
        then [B64.mkReport (B64.peakTime (B64.after r))
                           (B64.percentOvershoot (B64.after r))
                           (B64.settlingTime (B64.after r))]
        else []).
Proof.
  cbv zeta.
  unfold B64.calc, B64.calc_overshoot, B64.calc_settling, B64.calc_pid,
    B64.in_band.
  cbn.
  destruct ((B64.percentOvershoot c <? pv / B64.setpoint c - 1)
            && (0 <? pv / B64.setpoint c - 1)); cbn;
    destruct (_ && _); repeat split.
Qed.

Lemma b64_hasSettled_false_iff (c : B64.PIDController) :
  B64.hasSettled c = false <-> (B64.settlingTime c =? -1) = true.
Proof.
  unfold B64.hasSettled. destruct (B64.settlingTime c =? -1); cbn;
    split; congruence.
Qed.

(** While every sample fails the settling test, nothing about settling
    changes and nothing is printed. *)
Lemma b64_unsettled_prefix (samples : list B64.Sample) :
  forall c : B64.PIDController,
    forallb (fun s => negb (B64.in_band (B64.setpoint c) (snd s))) samples
    = true ->
    B64.settlingTime (B64.calc_all c samples) = B64.settlingTime c
    /\ B64.performance_timer (B64.calc_all c samples)
       = B64.performance_timer c
    /\ B64.console c samples = [].
Proof.
  induction samples as [| [clk pv] rest IH]; intros c H.
  - repeat split.
  - cbn [forallb snd] in H. apply andb_true_iff in H. destruct H as [H1 H2].
    apply negb_true_iff in H1.
    destruct (b64_calc_settling_members clk pv c) as (A & B & C).
    cbv zeta in A, B, C. rewrite H1 in A, B, C. cbn [andb] in A, B, C.
    destruct (b64_calc_frame clk pv c) as (_ & _ & _ & S & _).
    cbv zeta in S.
    destruct (IH (B64.after (B64.calc clk pv c))) as (I1 & I2 & I3).
    { rewrite S. exact H2. }
    unfold B64.console in *. cbn [B64.calc_all B64.calc_trace map concat].
    rewrite I1, I2, I3, A, B, C. repeat split.
Qed.

(** X13: [targetSetpoint] re-arms settling whatever the controller's
    history: [hasSettled] is false after it and stays false, with nothing
    printed, over the calls whose samples fail the code's 5% test; the first
    call whose sample passes it (on a clock that is not before the start of
    the episode) makes [hasSettled] true, prints one report and records as
    settling time the time since [targetSetpoint] started the performance
    timer. *)
Theorem b64_new_episode_settles_again :
  forall (t1 t2 : Z) (target : float) (c0 : B64.PIDController)
         (before : list B64.Sample) (clk : Ticks) (pv : float),
    let c := B64.targetSetpoint t1 t2 target c0 in
    let c' := B64.calc_all c before in
    let r := B64.calc clk pv c' in
    forallb (fun s => negb (B64.in_band (B64.getSetpoint c) (snd s))) before
    = true ->
    B64.in_band (B64.getSetpoint c) pv = true ->
    (t2 <= at_perf_stop clk)%Z ->
    B64.hasSettled c' = false
    /\ B64.console c before = []
    /\ B64.hasSettled (B64.after r) = true
    /\ B64.printed r
       = [B64.mkReport (B64.peakTime (B64.after r))
                       (B64.percentOvershoot (B64.after r))
                       (B64.settlingTime (B64.after r))]
    /\ B64.settlingTime (B64.after r)
       = B64.seconds (at_perf_stop clk - t2).
Proof.
  intros t1 t2 target c0 before clk pv c c' r Hpre Hband Hclk.
  destruct (b64_unsettled_prefix before c Hpre) as (A & B & C).
  destruct (b64_calc_all_frame before c) as (S & _).
  fold c' in A, B, S.
  destruct (b64_calc_settling_members clk pv c') as (M1 & M2 & M3).
  cbv zeta in M1, M2, M3. fold r in M1, M2, M3.
  unfold B64.getSetpoint in Hband.
  rewrite S, Hband, A in M1, M2, M3. rewrite B in M1, M2.
  change (B64.settlingTime c) with (-1)%float in *.
  change (B64.performance_timer c) with (Timer.mk false t2) in *.
  change (-1 =? -1) with true in M1, M2, M3.
  cbn [andb Timer.elapsed Timer.is_stopped Timer.mark] in M1, M2, M3.
  assert (E : (B64.seconds (at_perf_stop clk - t2) =? -1) = false)
    by (apply b64_seconds_not_sentinel; lia).
  split; [| split; [exact C | split; [| split; [exact M3 | exact M1]]]].
  - unfold B64.hasSettled. rewrite A. reflexivity.
  - unfold B64.hasSettled. rewrite M1, E. reflexivity.
Qed.

Lemma b64_new_episode_settles_again_witness :
  B64.hasSettled
    (B64.after
       (B64.calc (tick 9000000000) 3.1
          (B64.calc_all (B64.targetSetpoint 5000000000 5000000000 3
                           B64.limited)
                        [B64.at_second 6 0; B64.at_second 7 2.8])))
  = true.
Proof.
  apply (b64_new_episode_settles_again 5000000000 5000000000 3 B64.limited
           [B64.at_second 6 0; B64.at_second 7 2.8] (tick 9000000000) 3.1).
  - vm_compute. reflexivity.
  - vm_compute. reflexivity.
  - cbn. lia.
Defined.

(** On the code's doubles the 5% test is the rounded one: with the setpoint
    3 the sample [0x1.9333333333333p+1], which is inside the band in exact
    arithmetic, fails it. *)
Example b64_band_is_rounded :
  B64.in_band 3 0x1.9333333333333p+1 = false
  /\ B64.in_band 100 95 = false /\ B64.in_band 100 105 = false
  /\ B64.in_band 100 104 = true.
Proof.
  repeat split; vm_compute; reflexivity.
Qed.

(* ------------------------------------------------------------------------- *)
(** ** Limits, setpoint and integrator on binary64 *)
(* ------------------------------------------------------------------------- *)

(** X6: when [lowerInputLimit < upperInputLimit], the setpoint stored by
    [targetSetpoint] for a target that is not NaN lies in the input limits,
    and it is still the limiter's result after any sequence of [calc]
    calls; a NaN target is stored as NaN. *)
Theorem b64_setpoint_stays_within_input_limits :
  forall (t1 t2 : Z) (target : float) (c0 : B64.PIDController)
         (samples : list B64.Sample),
    let c := B64.calc_all (B64.targetSetpoint t1 t2 target c0) samples in
    let lo := B64.lowerInputLimit c0 in
    let hi := B64.upperInputLimit c0 in
    (lo <? hi) = true ->
    B64.getSetpoint c = B64.limiter target lo hi
    /\ is_nan (B64.getSetpoint c) = is_nan target
    /\ (is_nan target = false -> B64.in_range lo hi (B64.getSetpoint c) = true).
Proof.
  intros t1 t2 target c0 samples c lo hi H.
  destruct (b64_calc_all_frame samples (B64.targetSetpoint t1 t2 target c0))
    as (S & _).
  fold c in S. unfold B64.getSetpoint. rewrite S.
  change (B64.setpoint (B64.targetSetpoint t1 t2 target c0))
    with (B64.limiter target lo hi).
  destruct (b64_limiter_in_range_or_nan target lo hi H) as (_ & N & R & _).
  auto.
Qed.

Lemma b64_setpoint_stays_within_input_limits_witness :
  B64.in_range 2 8
    (B64.getSetpoint
       (B64.calc_all
          (B64.targetSetpoint 0 0 15 (B64.setInputLimits 2 8 B64.limited))
          [B64.at_second 1 0; B64.at_second 2 (-1000)])) = true.
Proof.
  apply (b64_setpoint_stays_within_input_limits 0 0 15
           (B64.setInputLimits 2 8 B64.limited)
           [B64.at_second 1 0; B64.at_second 2 (-1000)]);
    reflexivity.
Defined.

(** X7: anti-windup for any limits: a controller constructed with output
    limits [lo < hi] returns, at every call of any sequence of [calc] calls
    of an episode, a value that lies in [[lo, hi]] or is NaN, and stores an
    integrator that lies in [[lo, hi]] or is NaN. *)
Theorem b64_constructed_limits_bound_every_call :
  forall (n1 n2 t1 t2 : Z) (kp ki kd lo hi target : float)
         (raw : B64.PIDController) (samples : list B64.Sample),
    (lo <? hi) = true ->
    forallb (B64.within_limits_or_nan lo hi)
            (B64.calc_trace
               (B64.targetSetpoint t1 t2 target
                  (B64.PIDController_gains_out n1 n2 kp ki kd lo hi raw))
               samples) = true.
Proof.
  intros n1 n2 t1 t2 kp ki kd lo hi target raw samples H.
  apply (b64_calc_trace_within_limits samples
           (B64.targetSetpoint t1 t2 target
              (B64.PIDController_gains_out n1 n2 kp ki kd lo hi raw))).
  exact H.
Qed.

Lemma b64_constructed_limits_bound_every_call_witness :
  forallb (B64.within_limits_or_nan (-10) 10)
          (B64.calc_trace
             (B64.targetSetpoint 0 0 100
                (B64.PIDController_gains_out 0 0 1 2 3 (-10) 10
                   B64.raw_storage))
             [B64.at_second 1 0; B64.at_second 2 0; B64.at_second 3 (-1000);
              B64.at_second 4 5000; B64.at_second 5 nan]) = true.
Proof.
  apply (b64_constructed_limits_bound_every_call
           0 0 0 0 1 2 3 (-10) 10 100 B64.raw_storage).
  reflexivity.
Defined.

Lemma b64_calc_all_accumulates (samples : list B64.Sample) :
  forall (c : B64.PIDController) (t0 : Z),
    (B64.lowerOutputLimit c =? B64.upperOutputLimit c) = true ->
    B64.sample_timer c = Timer.mk false t0 ->
    B64.integrator (B64.calc_all c samples)
    = B64.accumulate (B64.integrator c) (B64.setpoint c) t0 samples.
Proof.
  induction samples as [| [clk pv] rest IH]; intros c t0 Hlim Ht;
    cbn [B64.calc_all B64.accumulate].
  - reflexivity.
  - destruct (b64_calc_equations clk pv c) as (Hi & _ & _ & Hs).
    destruct (b64_calc_frame clk pv c)
      as (_ & _ & _ & Hsp & _ & _ & Hlo & Hhi).
    cbv zeta in Hi, Hs, Hsp, Hlo, Hhi.
    rewrite (IH (B64.after (B64.calc clk pv c)) (at_sample_start clk));
      [| rewrite Hlo, Hhi; exact Hlim | exact Hs].
    rewrite Hi, Hsp. unfold B64.limiter at 1. rewrite Hlim.
    unfold B64.samplingInterval. rewrite Ht. reflexivity.
Qed.

(** X8: with the output limits disabled (equal), nothing bounds the
    integrator: after the calls of an episode it is the sum, accumulated
    call by call with the code's rounding from its value before
    [targetSetpoint] (which does not clear it), of every error times its
    sampling interval, the interval of a call running from the previous
    call's [sample_timer.start()] (for the first call, the one of
    [targetSetpoint]) to this call's [sample_timer.stop()]. *)
Theorem b64_integrator_accumulates_without_limits :
  forall (t1 t2 : Z) (target : float) (c0 : B64.PIDController)
         (samples : list B64.Sample),
    (B64.lowerOutputLimit c0 =? B64.upperOutputLimit c0) = true ->
    let c := B64.targetSetpoint t1 t2 target c0 in
    B64.integrator (B64.calc_all c samples)
    = B64.accumulate (B64.integrator c0) (B64.getSetpoint c) t1 samples.
Proof.
  intros t1 t2 target c0 samples H c.
  apply (b64_calc_all_accumulates samples c t1); [exact H | reflexivity].
Qed.

Lemma b64_integrator_accumulates_without_limits_witness :
  B64.integrator
    (B64.calc_all
       (B64.targetSetpoint 0 0 10
          (B64.PIDController_gains 0 0 2 1 0 B64.raw_storage))
       [B64.at_second 1 4; B64.at_second 2 4; B64.at_second 3 4;
        B64.at_second 4 4]) = 24.
Proof.
  rewrite (b64_integrator_accumulates_without_limits 0 0 10
             (B64.PIDController_gains 0 0 2 1 0 B64.raw_storage)).
  - vm_compute. reflexivity.
  - reflexivity.
Defined.

End Binary64.
